(** * Skill Swap Platform: the swap-request engine and the skill catalog

    A shallow embedding of [backend/app/database.py], [backend/app/schemas.py],
    [backend/app/routers/swaps.py], [backend/app/routers/skills.py], the
    profile and offered-skill routes of [backend/app/routers/users.py] and the
    ban, pending-skill and statistics routes of [backend/app/routers/admin.py].

    - Integer columns and pydantic [int] fields are [Z].
    - [str] values are [string]; the string functions below ([strip], [title],
      [ilike]) follow Python and SQLite on ASCII text.
    - A table is the list of its rows in rowid order, so that
      [query.filter(p).first()] is [find p].
    - A route handler is a function from the store to the store it leaves
      behind and either the value it returns or the exception it raises.
    - The [created_at] / [updated_at] columns are filled by the database
      clock and are left out. *)

From Stdlib Require Import ZArith List String Ascii Bool Lia Permutation.
Import ListNotations.

Local Open Scope string_scope.
Local Open Scope list_scope.
Local Open Scope Z_scope.

(** ** database.py: the tables *)

Module User.
Record t := mk
  { id : Z;
    username : string;
    is_public : bool;
    is_active : bool;
    is_admin : bool }.
End User.

Module Skill.
Record t := mk
  { id : Z;
    name : string;
    category : option string;
    description : option string;
    is_approved : bool }.
End Skill.

Module SwapRequest.
Record t := mk
  { id : Z;
    requester_id : Z;
    requested_id : Z;
    skill_offered_id : Z;
    skill_wanted_id : Z;
    message : option string;
    status : string }.
End SwapRequest.

Module Feedback.
Record t := mk
  { id : Z;
    swap_request_id : Z;
    giver_id : Z;
    receiver_id : Z;
    rating : Z;
    comment : option string }.
End Feedback.

(** [user_skills_offered] is the association table of the many-to-many
    relationship [User.skills_offered]: rows [(user_id, skill_id)]. *)
Record DB := mkDB
  { users : list User.t;
    skills : list Skill.t;
    user_skills_offered : list (Z * Z);
    swap_requests : list SwapRequest.t;
    feedback : list Feedback.t }.

Definition with_skills (db : DB) (l : list Skill.t) : DB :=
  mkDB (users db) l (user_skills_offered db) (swap_requests db) (feedback db).

Definition with_user_skills_offered (db : DB) (l : list (Z * Z)) : DB :=
  mkDB (users db) (skills db) l (swap_requests db) (feedback db).

Definition with_swap_requests (db : DB) (l : list SwapRequest.t) : DB :=
  mkDB (users db) (skills db) (user_skills_offered db) l (feedback db).

Definition with_feedback (db : DB) (l : list Feedback.t) : DB :=
  mkDB (users db) (skills db) (user_skills_offered db) (swap_requests db) l.

(** An [Integer] primary key without a value gets the largest rowid of the
    table plus one (1 in an empty table). *)
Definition next_id (ids : list Z) : Z := 1 + fold_right Z.max 0 ids.

(** [user.skills_offered]: the skills joined to the user through the
    association table. *)
Definition skills_offered (db : DB) (user : User.t) : list Skill.t :=
  filter
    (fun s =>
       existsb (fun p => (fst p =? User.id user) && (snd p =? Skill.id s))
               (user_skills_offered db))
    (skills db).

(** [skill in l] on mapped objects of one session: the same row, that is the
    same primary key. *)
Definition skill_in (skill : Skill.t) (l : list Skill.t) : bool :=
  existsb (fun s => Skill.id s =? Skill.id skill) l.

(** ** schemas.py: the request bodies *)

Module SwapRequestCreate.
Record t := mk
  { requested_id : Z;
    skill_offered_id : Z;
    skill_wanted_id : Z;
    message : option string }.
End SwapRequestCreate.

(** [status: str] is required and unrestricted; [message] is optional: the
    outer [None] is a field the body did not set, which
    [dict(exclude_unset=True)] drops, [Some None] is an explicit null. *)
Module SwapRequestUpdate.
Record t := mk
  { status : string;
    message : option (option string) }.
End SwapRequestUpdate.

Module SkillCreate.
Record t := mk
  { name : string;
    category : option string;
    description : option string }.
End SkillCreate.

Module FeedbackCreate.
Record t := mk
  { swap_request_id : Z;
    receiver_id : Z;
    rating : Z;
    comment : option string }.
End FeedbackCreate.

(** ** Handlers: store passing with exceptions *)

(** What a route can raise: an [HTTPException], or the [IntegrityError] of a
    commit that breaks a UNIQUE constraint, which no route catches. *)
Inductive Error :=
| HTTPException (status_code : Z) (detail : string)
| IntegrityError.

Inductive result (E A : Type) :=
| Ok (a : A)
| Raise (e : E).
Arguments Ok {E A} a.
Arguments Raise {E A} e.

Definition Handler (E A : Type) : Type := DB -> DB * result E A.

Definition ret {E A} (a : A) : Handler E A := fun db => (db, Ok a).

Definition raise {E A} (e : E) : Handler E A := fun db => (db, Raise e).

Definition bind {E A B} (m : Handler E A) (k : A -> Handler E B) : Handler E B :=
  fun db =>
    match m db with
    | (db', Ok a) => k a db'
    | (db', Raise e) => (db', Raise e)
    end.

Definition query {E} : Handler E DB := fun db => (db, Ok db).

Definition commit {E} (f : DB -> DB) : Handler E unit := fun db => (f db, Ok tt).

Notation "x <- m ;; k" := (bind m (fun x => k))
  (at level 61, m at next level, right associativity).
Notation "m ;;; k" := (bind m (fun _ => k))
  (at level 61, right associativity).

Definition succeeded {E A} (out : DB * result E A) : Prop :=
  exists a, snd out = Ok a.

Definition raised {E A} (out : DB * result E A) (e : E) : Prop :=
  snd out = Raise e.

(** ** routers/swaps.py *)

Definition tuple_is (requester requested offered wanted : Z)
           (r : SwapRequest.t) : bool :=
  (SwapRequest.requester_id r =? requester)
  && (SwapRequest.requested_id r =? requested)
  && (SwapRequest.skill_offered_id r =? offered)
  && (SwapRequest.skill_wanted_id r =? wanted).

Definition is_pending (r : SwapRequest.t) : bool :=
  (SwapRequest.status r =? "pending")%string.

(** The filter of the duplicate query of [create_swap_request]. *)
Definition pending_with (requester requested offered wanted : Z)
           (r : SwapRequest.t) : bool :=
  tuple_is requester requested offered wanted r && is_pending r.

(** [SwapRequest(requester_id=current_user.id, ..., status="pending")], with
    the id the table gives it at the commit. *)
Definition new_swap_request (db : DB) (swap_request : SwapRequestCreate.t)
           (current_user : User.t) : SwapRequest.t :=
  SwapRequest.mk
    (next_id (map SwapRequest.id (swap_requests db)))
    (User.id current_user)
    (SwapRequestCreate.requested_id swap_request)
    (SwapRequestCreate.skill_offered_id swap_request)
    (SwapRequestCreate.skill_wanted_id swap_request)
    (SwapRequestCreate.message swap_request)
    "pending".

Definition create_swap_request
           (swap_request : SwapRequestCreate.t) (current_user : User.t)
  : Handler Error SwapRequest.t :=
  db <- query ;;
  let requested_id := SwapRequestCreate.requested_id swap_request in
  let skill_offered_id := SwapRequestCreate.skill_offered_id swap_request in
  let skill_wanted_id := SwapRequestCreate.skill_wanted_id swap_request in
  match find (fun u => User.id u =? requested_id) (users db) with
  | None => raise (HTTPException 404 "Requested user not found or inactive")
  | Some requested_user =>
    if negb (User.is_active requested_user) then
      raise (HTTPException 404 "Requested user not found or inactive")
    else if requested_id =? User.id current_user then
      raise (HTTPException 400 "Cannot request a swap with yourself")
    else
      match find (fun s => Skill.id s =? skill_offered_id) (skills db),
            find (fun s => Skill.id s =? skill_wanted_id) (skills db) with
      | Some skill_offered, Some skill_wanted =>
        if negb (skill_in skill_offered (skills_offered db current_user)) then
          raise (HTTPException 400
                   "You don't offer the skill you're proposing to teach")
        else if negb (skill_in skill_wanted (skills_offered db requested_user)) then
          raise (HTTPException 400
                   "The requested user doesn't offer the skill you want to learn")
        else
          match find (pending_with (User.id current_user) requested_id
                                   skill_offered_id skill_wanted_id)
                     (swap_requests db) with
          | Some _ =>
            raise (HTTPException 400
                     "A pending request for this skill swap already exists")
          | None =>
            let db_request := new_swap_request db swap_request current_user in
            commit (fun db => with_swap_requests db (swap_requests db ++ [db_request])) ;;;
            ret db_request
          end
      | _, _ => raise (HTTPException 404 "One or both skills not found")
      end
  end.

(** [for field, value in update_data.dict(exclude_unset=True).items():
    setattr(swap_request, field, value)] *)
Definition apply_update (update_data : SwapRequestUpdate.t)
           (r : SwapRequest.t) : SwapRequest.t :=
  SwapRequest.mk
    (SwapRequest.id r) (SwapRequest.requester_id r) (SwapRequest.requested_id r)
    (SwapRequest.skill_offered_id r) (SwapRequest.skill_wanted_id r)
    (match SwapRequestUpdate.message update_data with
     | Some value => value
     | None => SwapRequest.message r
     end)
    (SwapRequestUpdate.status update_data).

Definition mem_string (s : string) (l : list string) : bool :=
  existsb (String.eqb s) l.

(** The permission block of [update_swap_request], keyed by the new status. *)
Definition validate_permissions (update_data : SwapRequestUpdate.t)
           (swap_request : SwapRequest.t) (current_user : User.t)
  : Handler Error unit :=
  let new_status := SwapRequestUpdate.status update_data in
  if mem_string new_status ["accepted"; "rejected"] then
    if negb (SwapRequest.requested_id swap_request =? User.id current_user) then
      raise (HTTPException 403
               "Only the requested user can accept or reject requests")
    else ret tt
  else if (new_status =? "cancelled")%string then
    if negb (SwapRequest.requester_id swap_request =? User.id current_user) then
      raise (HTTPException 403 "Only the requester can cancel requests")
    else ret tt
  else if (new_status =? "completed")%string then
    if negb (SwapRequest.requester_id swap_request =? User.id current_user)
       && negb (SwapRequest.requested_id swap_request =? User.id current_user) then
      raise (HTTPException 403 "Not authorized to update this request")
    else ret tt
  else ret tt.

(** UPDATE swap_requests SET status, message WHERE id = [request_id]. *)
Definition update_rows (request_id : Z) (update_data : SwapRequestUpdate.t)
           (rows : list SwapRequest.t) : list SwapRequest.t :=
  map (fun r => if SwapRequest.id r =? request_id
                then apply_update update_data r else r) rows.

Definition update_swap_request
           (request_id : Z) (update_data : SwapRequestUpdate.t)
           (current_user : User.t)
  : Handler Error SwapRequest.t :=
  db <- query ;;
  match find (fun r => SwapRequest.id r =? request_id) (swap_requests db) with
  | None => raise (HTTPException 404 "Swap request not found")
  | Some swap_request =>
    validate_permissions update_data swap_request current_user ;;;
    commit (fun db =>
              with_swap_requests
                db (update_rows (SwapRequest.id swap_request) update_data
                                (swap_requests db))) ;;;
    ret (apply_update update_data swap_request)
  end.

(** DELETE FROM swap_requests WHERE id = [request_id]. *)
Definition delete_rows (request_id : Z) (rows : list SwapRequest.t)
  : list SwapRequest.t :=
  filter (fun r => negb (SwapRequest.id r =? request_id)) rows.

Definition delete_swap_request (request_id : Z) (current_user : User.t)
  : Handler Error string :=
  db <- query ;;
  match find (fun r => SwapRequest.id r =? request_id) (swap_requests db) with
  | None => raise (HTTPException 404 "Swap request not found")
  | Some swap_request =>
    if negb (SwapRequest.requester_id swap_request =? User.id current_user) then
      raise (HTTPException 403 "Only the requester can delete their own requests")
    else if negb (SwapRequest.status swap_request =? "pending")%string then
      raise (HTTPException 400 "Can only delete pending requests")
    else
      commit (fun db =>
                with_swap_requests
                  db (delete_rows (SwapRequest.id swap_request) (swap_requests db))) ;;;
      ret "Swap request deleted successfully"
  end.

(** ** Python and SQLite string functions, on ASCII text *)

Definition is_upper (c : ascii) : bool :=
  let n := N_of_ascii c in ((65 <=? n) && (n <=? 90))%N.

Definition is_lower (c : ascii) : bool :=
  let n := N_of_ascii c in ((97 <=? n) && (n <=? 122))%N.

Definition to_lower (c : ascii) : ascii :=
  if is_upper c then ascii_of_N (N_of_ascii c + 32) else c.

Definition to_upper (c : ascii) : ascii :=
  if is_lower c then ascii_of_N (N_of_ascii c - 32) else c.

(** [str.isspace] on one ASCII character: TAB, LF, VT, FF, CR, the four
    separators FS, GS, RS, US, and the space. *)
Definition is_space (c : ascii) : bool :=
  let n := N_of_ascii c in
  (((9 <=? n) && (n <=? 13)) || ((28 <=? n) && (n <=? 32)))%N.

Fixpoint lstrip (s : list ascii) : list ascii :=
  match s with
  | c :: s' => if is_space c then lstrip s' else s
  | [] => []
  end.

(** [str.strip()] *)
Definition strip (s : string) : string :=
  string_of_list_ascii
    (rev (lstrip (rev (lstrip (list_ascii_of_string s))))).

(** [str.title()]: a cased character is upper-cased when the character
    before it is not cased, and lower-cased otherwise. *)
Fixpoint title_from (previous_is_cased : bool) (s : string) : string :=
  match s with
  | EmptyString => EmptyString
  | String c s' =>
    String (if previous_is_cased then to_lower c else to_upper c)
           (title_from (is_upper c || is_lower c) s')
  end.

Definition title (s : string) : string := title_from false s.

(** SQLite's [LIKE]: [%] matches any run of characters, [_] any one
    character, every other character matches itself up to ASCII case. *)
Fixpoint like (pattern s : list ascii) : bool :=
  match pattern with
  | [] => match s with [] => true | _ :: _ => false end
  | p :: pattern' =>
    if (p =? "%")%char then
      (fix any (s : list ascii) : bool :=
         like pattern' s
         || match s with [] => false | _ :: s' => any s' end) s
    else
      match s with
      | [] => false
      | c :: s' =>
        ((p =? "_")%char || (to_lower p =? to_lower c)%char) && like pattern' s'
      end
  end.

(** [str.lower()], and SQL's [lower()]. *)
Definition lower (s : string) : string :=
  string_of_list_ascii (map to_lower (list_ascii_of_string s)).

(** [column.ilike(other)], rendered [lower(column) LIKE lower(other)]. *)
Definition ilike (column other : string) : bool :=
  like (list_ascii_of_string (lower other)) (list_ascii_of_string (lower column)).

(** ** routers/skills.py *)

(** [Skill.name] is declared [unique=True]: the commit of a row whose name is
    already in the table raises. *)
Definition add_skill (db_skill : Skill.t) : Handler Error unit :=
  db <- query ;;
  if existsb (fun s => (Skill.name s =? Skill.name db_skill)%string) (skills db)
  then raise IntegrityError
  else commit (fun db => with_skills db (skills db ++ [db_skill])).

Definition create_skill (skill : SkillCreate.t) (current_user : User.t)
  : Handler Error Skill.t :=
  db <- query ;;
  match find (fun s => ilike (Skill.name s) (SkillCreate.name skill)) (skills db) with
  | Some existing_skill =>
    if Skill.is_approved existing_skill then ret existing_skill
    else raise (HTTPException 400 "Skill exists but is pending approval")
  | None =>
    let db_skill :=
      Skill.mk
        (next_id (map Skill.id (skills db)))
        (title (strip (SkillCreate.name skill)))
        (match SkillCreate.category skill with
         | Some c => if (c =? "")%string then None else Some (title (strip c))
         | None => None
         end)
        (SkillCreate.description skill)
        true in
    add_skill db_skill ;;;
    ret db_skill
  end.

(** ** routers/users.py: the offered-skill routes *)

Definition add_skill_offered (skill_id : Z) (current_user : User.t)
  : Handler Error string :=
  db <- query ;;
  match find (fun s => Skill.id s =? skill_id) (skills db) with
  | None => raise (HTTPException 404 "Skill not found")
  | Some skill =>
    (if negb (skill_in skill (skills_offered db current_user)) then
       commit (fun db =>
                 with_user_skills_offered
                   db (user_skills_offered db ++ [(User.id current_user, Skill.id skill)]))
     else ret tt) ;;;
    ret "Skill added successfully"
  end.

Definition remove_skill_offered (skill_id : Z) (current_user : User.t)
  : Handler Error string :=
  db <- query ;;
  match find (fun s => Skill.id s =? skill_id) (skills db) with
  | None => raise (HTTPException 404 "Skill not found")
  | Some skill =>
    (if skill_in skill (skills_offered db current_user) then
       commit (fun db =>
                 with_user_skills_offered
                   db (filter (fun p => negb ((fst p =? User.id current_user)
                                              && (snd p =? Skill.id skill)))
                              (user_skills_offered db)))
     else ret tt) ;;;
    ret "Skill removed successfully"
  end.

(** ** Sequential execution *)

(** The requests of the routes above; the user of each is the one the
    session dependency resolved. *)
Inductive Call :=
| CreateSwapRequest (swap_request : SwapRequestCreate.t) (current_user : User.t)
| UpdateSwapRequest (request_id : Z) (update_data : SwapRequestUpdate.t)
                    (current_user : User.t)
| DeleteSwapRequest (request_id : Z) (current_user : User.t)
| CreateSkill (skill : SkillCreate.t) (current_user : User.t)
| AddSkillOffered (skill_id : Z) (current_user : User.t)
| RemoveSkillOffered (skill_id : Z) (current_user : User.t).

Definition outcome {A} (out : DB * result Error A) : DB * option Error :=
  (fst out, match snd out with Ok _ => None | Raise e => Some e end).

(** A call on a store: the store it leaves behind, and the exception when
    the handler raised one. *)
Definition handle (c : Call) (db : DB) : DB * option Error :=
  match c with
  | CreateSwapRequest b u => outcome (create_swap_request b u db)
  | UpdateSwapRequest i b u => outcome (update_swap_request i b u db)
  | DeleteSwapRequest i u => outcome (delete_swap_request i u db)
  | CreateSkill b u => outcome (create_skill b u db)
  | AddSkillOffered i u => outcome (add_skill_offered i u db)
  | RemoveSkillOffered i u => outcome (remove_skill_offered i u db)
  end.

Definition serve (c : Call) (db : DB) : DB := fst (handle c db).

Definition serve_all (cs : list Call) (db : DB) : DB :=
  fold_left (fun db c => serve c db) cs db.

(** ** The error taxonomy of the specification *)

Inductive ErrorKind :=
| NotFound
| Forbidden
| InvalidOperation
| Conflict
| Validation.

(** 404 is NotFound and 403 Forbidden; the routes raise 400 both for a broken
    business rule (InvalidOperation) and for a uniqueness violation
    (Conflict: the duplicate pending tuple, the unapproved duplicate skill
    name), told apart by their detail. *)
Definition kind_of (e : Error) : option ErrorKind :=
  match e with
  | HTTPException code detail =>
    if code =? 404 then Some NotFound
    else if code =? 403 then Some Forbidden
    else if code =? 422 then Some Validation
    else if code =? 400 then
      if mem_string detail
           ["A pending request for this skill swap already exists";
            "Skill exists but is pending approval"]
      then Some Conflict else Some InvalidOperation
    else None
  | IntegrityError => None
  end.

(** The exception of the duplicate check of [create_swap_request]. *)
Definition conflict : Error :=
  HTTPException 400 "A pending request for this skill swap already exists".

Definition fails_with {A} (out : DB * result Error A) (k : ErrorKind) : Prop :=
  exists e, snd out = Raise e /\ kind_of e = Some k.

(** The operations of the Swap Request Engine. *)
Definition swap_engine_call (c : Call) : bool :=
  match c with
  | CreateSwapRequest _ _ | UpdateSwapRequest _ _ _ | DeleteSwapRequest _ _ => true
  | _ => false
  end.

(** An update whose new status is ["pending"]. *)
Definition sets_pending (c : Call) : bool :=
  match c with
  | UpdateSwapRequest _ update_data _ =>
    (SwapRequestUpdate.status update_data =? "pending")%string
  | _ => false
  end.

(** ** The properties of the specification *)

(** The five statuses of the state machine. *)
Definition statuses : list string :=
  ["pending"; "accepted"; "rejected"; "completed"; "cancelled"].

(** The target statuses the transition table governs. *)
Definition governed : list string :=
  ["accepted"; "rejected"; "cancelled"; "completed"].

(** The transition table: who may apply which target status. *)
Definition authorized_actor (new_status : string) (r : SwapRequest.t)
           (actor : Z) : Prop :=
  ((new_status = "accepted" \/ new_status = "rejected")
   /\ SwapRequest.requested_id r = actor)
  \/ (new_status = "cancelled" /\ SwapRequest.requester_id r = actor)
  \/ (new_status = "completed"
      /\ (SwapRequest.requester_id r = actor \/ SwapRequest.requested_id r = actor)).

(** The identity store's membership test: does the user offer the skill. *)
Definition offers (db : DB) (user : User.t) (skill : Skill.t) : bool :=
  skill_in skill (skills_offered db user).

(** The normalized form of a skill name: trimmed, case-insensitive. *)
Definition normalized (name : string) : string := lower (strip name).

(** At most one pending request for each (requester, requested,
    skill offered, skill wanted). *)
Definition at_most_one_pending (db : DB) : Prop :=
  forall requester requested offered wanted,
    (List.length (filter (pending_with requester requested offered wanted)
                    (swap_requests db)) <= 1)%nat.

(** A pending request with the terms of the body already exists. *)
Definition duplicate_pending (db : DB) (swap_request : SwapRequestCreate.t)
           (current_user : User.t) : Prop :=
  exists r,
    In r (swap_requests db)
    /\ pending_with (User.id current_user)
                    (SwapRequestCreate.requested_id swap_request)
                    (SwapRequestCreate.skill_offered_id swap_request)
                    (SwapRequestCreate.skill_wanted_id swap_request) r = true.

(** Steps 1 to 5 of the validation sequence of creation hold. *)
Definition passes_steps_1_to_5 (db : DB) (swap_request : SwapRequestCreate.t)
           (current_user : User.t) : Prop :=
  exists requested_user skill_offered skill_wanted,
    find (fun u => User.id u =? SwapRequestCreate.requested_id swap_request)
         (users db) = Some requested_user
    /\ User.is_active requested_user = true
    /\ SwapRequestCreate.requested_id swap_request <> User.id current_user
    /\ find (fun s => Skill.id s =? SwapRequestCreate.skill_offered_id swap_request)
            (skills db) = Some skill_offered
    /\ find (fun s => Skill.id s =? SwapRequestCreate.skill_wanted_id swap_request)
            (skills db) = Some skill_wanted
    /\ offers db current_user skill_offered = true
    /\ offers db requested_user skill_wanted = true.

(** ** The feedback ledger *)

Section FeedbackLedger.

(** The specification names no error for a submission whose giver and
    receiver are not the two parties of the request. *)
Variable party_error : ErrorKind.

(** Modelled from the spec: the user is one of the two parties of the
    request, its requester or its requested user. *)
Definition is_party (r : SwapRequest.t) (user_id : Z) : bool :=
  (SwapRequest.requester_id r =? user_id)
  || (SwapRequest.requested_id r =? user_id).

(** Modelled from the spec: the handler that stores a [Feedback] row, which
    [main.py] mounts no router for; only the [FeedbackCreate] body and the
    [feedback] table are declared. The giver is the user of the session.
    The rating is checked with the body, before the handler looks the
    request up: out of 1..5 fails Validation; a request that does not exist
    fails NotFound; giver and receiver must each be one of the two parties
    of the request and differ from each other. *)
Definition submit_feedback (body : FeedbackCreate.t) (current_user : User.t)
  : Handler ErrorKind Feedback.t :=
  let rating := FeedbackCreate.rating body in
  if (rating <? 1) || (5 <? rating) then raise Validation
  else
    db <- query ;;
    match find (fun r => SwapRequest.id r =? FeedbackCreate.swap_request_id body)
               (swap_requests db) with
    | None => raise NotFound
    | Some swap_request =>
      let giver_id := User.id current_user in
      let receiver_id := FeedbackCreate.receiver_id body in
      if is_party swap_request giver_id
         && is_party swap_request receiver_id
         && negb (giver_id =? receiver_id)
      then
        let db_feedback :=
          Feedback.mk (next_id (map Feedback.id (feedback db)))
                      (FeedbackCreate.swap_request_id body)
                      giver_id receiver_id rating
                      (FeedbackCreate.comment body) in
        commit (fun db => with_feedback db (feedback db ++ [db_feedback])) ;;;
        ret db_feedback
      else raise party_error
    end.

End FeedbackLedger.

(** ** A small store: Alice offers Guitar, Bob offers Spanish *)

Module Sample.

Definition alice : User.t := User.mk 1 "alice" true true false.
Definition bob : User.t := User.mk 2 "bob" true true false.
Definition carol : User.t := User.mk 3 "carol" true true false.

Definition guitar : Skill.t := Skill.mk 1 "Guitar" (Some "Music") None true.
Definition spanish : Skill.t := Skill.mk 2 "Spanish" (Some "Languages") None true.

Definition db0 : DB :=
  mkDB [alice; bob; carol] [guitar; spanish] [(1, 1); (2, 2)] [] [].

(** Alice proposes Guitar for Bob's Spanish. *)
Definition guitar_for_spanish : SwapRequestCreate.t :=
  SwapRequestCreate.mk 2 1 2 (Some "Trade?").

Definition set_status (s : string) : SwapRequestUpdate.t :=
  SwapRequestUpdate.mk s None.

(** Alice's request is pending. *)
Definition db_pending : DB :=
  serve (CreateSwapRequest guitar_for_spanish alice) db0.

(** Alice's request is pending and she no longer offers Guitar. *)
Definition db_withdrawn : DB :=
  serve_all [CreateSwapRequest guitar_for_spanish alice;
             RemoveSkillOffered 1 alice] db0.

(** Bob rejects, Alice proposes again, Carol sets the first request back
    to pending. *)
Definition db_reopened : DB :=
  serve_all [CreateSwapRequest guitar_for_spanish alice;
             UpdateSwapRequest 1 (set_status "rejected") bob;
             CreateSwapRequest guitar_for_spanish alice;
             UpdateSwapRequest 1 (set_status "pending") carol] db0.

(** Alice cancels her request. *)
Definition db_cancelled : DB :=
  serve_all [CreateSwapRequest guitar_for_spanish alice;
             UpdateSwapRequest 1 (set_status "cancelled") alice] db0.

End Sample.

(** ** routers/swaps.py: the read routes *)

Definition get_swap_request (request_id : Z) (current_user : User.t)
  : Handler Error SwapRequest.t :=
  db <- query ;;
  match find (fun r => SwapRequest.id r =? request_id) (swap_requests db) with
  | None => raise (HTTPException 404 "Swap request not found")
  | Some swap_request =>
    if negb (SwapRequest.requester_id swap_request =? User.id current_user)
       && negb (SwapRequest.requested_id swap_request =? User.id current_user)
    then raise (HTTPException 403 "Not authorized to view this swap request")
    else ret swap_request
  end.

(** The filters of [get_my_swap_requests]: [type_filter] is "sent",
    "received" or anything else for both; a [status_filter] that is [None] or
    empty does not filter. *)
Definition my_swap_requests_filter (status_filter : option string)
           (type_filter : string) (current_user : User.t)
           (r : SwapRequest.t) : bool :=
  (if (type_filter =? "sent")%string then
     SwapRequest.requester_id r =? User.id current_user
   else if (type_filter =? "received")%string then
     SwapRequest.requested_id r =? User.id current_user
   else
     (SwapRequest.requester_id r =? User.id current_user)
     || (SwapRequest.requested_id r =? User.id current_user))
  && match status_filter with
     | Some s => if (s =? "")%string then true
                 else (SwapRequest.status r =? s)%string
     | None => true
     end.

Section OrderBy.

(** [order_by(SwapRequest.created_at.desc())]: the [created_at] column is not
    modelled, the sort of the database is taken as it comes. *)
Variable order_by_created_at_desc : list SwapRequest.t -> list SwapRequest.t.

Definition get_my_swap_requests (status_filter : option string)
           (type_filter : string) (current_user : User.t)
  : Handler Error (list SwapRequest.t) :=
  db <- query ;;
  ret (order_by_created_at_desc
         (filter (my_swap_requests_filter status_filter type_filter current_user)
                 (swap_requests db))).

End OrderBy.

(** ** routers/skills.py: the catalog routes *)

(** [query.offset(offset).limit(limit)] in SQLite: a negative offset is no
    offset, a negative limit is no limit. *)
Definition offset_limit {A} (offset limit : Z) (rows : list A) : list A :=
  let rows := skipn (Z.to_nat offset) rows in
  if limit <? 0 then rows else firstn (Z.to_nat limit) rows.

(** [f"%{text}%"] *)
Definition contains_pattern (text : string) : string :=
  ("%" ++ text ++ "%")%string.

(** A filter of [get_skills], on a nullable column: a [None] or empty
    parameter does not filter; a NULL column matches no pattern. *)
Definition ilike_filter (parameter : option string) (column : option string)
  : bool :=
  match parameter with
  | None => true
  | Some text =>
    if (text =? "")%string then true
    else match column with
         | Some value => ilike value (contains_pattern text)
         | None => false
         end
  end.

(** [limit] is declared [Query(50, le=100)]: the handler runs with
    [limit <= 100] only. *)
Definition get_skills (category search : option string) (limit offset : Z)
           (current_user : User.t) : Handler Error (list Skill.t) :=
  db <- query ;;
  ret (offset_limit offset limit
         (filter (fun s => ilike_filter search (Some (Skill.name s)))
                 (filter (fun s => ilike_filter category (Skill.category s))
                         (filter Skill.is_approved (skills db))))).

(** The categories of the approved skills, DISTINCT, without the NULL and
    the empty ones. *)
Definition get_skill_categories (current_user : User.t)
  : Handler Error (list string) :=
  db <- query ;;
  let categories :=
    nodup string_dec
          (flat_map (fun s => match Skill.category s with
                              | Some c => [c]
                              | None => []
                              end)
                    (filter Skill.is_approved (skills db))) in
  ret (filter (fun c => negb (c =? "")%string) categories).

Definition get_skill (skill_id : Z) (current_user : User.t)
  : Handler Error Skill.t :=
  db <- query ;;
  match find (fun s => Skill.id s =? skill_id) (skills db) with
  | None => raise (HTTPException 404 "Skill not found")
  | Some skill => ret skill
  end.

Definition set_is_approved (value : bool) (s : Skill.t) : Skill.t :=
  Skill.mk (Skill.id s) (Skill.name s) (Skill.category s)
           (Skill.description s) value.

(** UPDATE skills SET is_approved WHERE id = [skill_id]. *)
Definition update_is_approved (skill_id : Z) (value : bool)
           (rows : list Skill.t) : list Skill.t :=
  map (fun s => if Skill.id s =? skill_id then set_is_approved value s else s)
      rows.

(** The three routes below depend on [get_current_admin_user]: they run for
    an administrator only. *)
Definition approve_skill (skill_id : Z) (current_user : User.t)
  : Handler Error string :=
  db <- query ;;
  match find (fun s => Skill.id s =? skill_id) (skills db) with
  | None => raise (HTTPException 404 "Skill not found")
  | Some skill =>
    commit (fun db =>
              with_skills db (update_is_approved (Skill.id skill) true (skills db))) ;;;
    ret "Skill approved successfully"
  end.

Definition reject_skill (skill_id : Z) (current_user : User.t)
  : Handler Error string :=
  db <- query ;;
  match find (fun s => Skill.id s =? skill_id) (skills db) with
  | None => raise (HTTPException 404 "Skill not found")
  | Some skill =>
    commit (fun db =>
              with_skills db (update_is_approved (Skill.id skill) false (skills db))) ;;;
    ret "Skill rejected successfully"
  end.


(** ** routers/users.py: the profile routes *)

Definition get_user (user_id : Z) (current_user : User.t)
  : Handler Error User.t :=
  db <- query ;;
  match find (fun u => User.id u =? user_id) (users db) with
  | None => raise (HTTPException 404 "User not found")
  | Some user =>
    if negb (User.is_public user) && negb (User.id user =? User.id current_user)
    then raise (HTTPException 403 "This profile is private")
    else ret user
  end.

Definition get_user_skills_offered (user_id : Z) (current_user : User.t)
  : Handler Error (list Skill.t) :=
  db <- query ;;
  match find (fun u => User.id u =? user_id) (users db) with
  | None => raise (HTTPException 404 "User not found")
  | Some user =>
    if negb (User.is_public user) && negb (User.id user =? User.id current_user)
    then raise (HTTPException 403 "This profile is private")
    else ret (skills_offered db user)
  end.

(** ** routers/admin.py *)

Definition with_users (db : DB) (l : list User.t) : DB :=
  mkDB l (skills db) (user_skills_offered db) (swap_requests db) (feedback db).

Definition set_is_active (value : bool) (u : User.t) : User.t :=
  User.mk (User.id u) (User.username u) (User.is_public u) value (User.is_admin u).

(** UPDATE users SET is_active WHERE id = [user_id]. *)
Definition update_is_active (user_id : Z) (value : bool)
           (rows : list User.t) : list User.t :=
  map (fun u => if User.id u =? user_id then set_is_active value u else u) rows.

Definition ban_user (user_id : Z) (current_admin : User.t)
  : Handler Error string :=
  db <- query ;;
  match find (fun u => User.id u =? user_id) (users db) with
  | None => raise (HTTPException 404 "User not found")
  | Some user =>
    if User.is_admin user then
      raise (HTTPException 400 "Cannot ban an admin user")
    else
      commit (fun db =>
                with_users db (update_is_active (User.id user) false (users db))) ;;;
      ret ("User " ++ User.username user ++ " has been banned")%string
  end.

Definition unban_user (user_id : Z) (current_admin : User.t)
  : Handler Error string :=
  db <- query ;;
  match find (fun u => User.id u =? user_id) (users db) with
  | None => raise (HTTPException 404 "User not found")
  | Some user =>
    commit (fun db =>
              with_users db (update_is_active (User.id user) true (users db))) ;;;
    ret ("User " ++ User.username user ++ " has been unbanned")%string
  end.

Definition get_pending_skills (current_admin : User.t)
  : Handler Error (list Skill.t) :=
  db <- query ;;
  ret (filter (fun s => negb (Skill.is_approved s)) (skills db)).

(** The response of [get_platform_stats]. *)
Module PlatformStats.
Record t := mk
  { users_total : Z;
    users_active : Z;
    users_inactive : Z;
    skills_total : Z;
    skills_approved : Z;
    skills_pending : Z;
    swaps_total : Z;
    swaps_pending : Z;
    swaps_completed : Z }.
End PlatformStats.

(** [db.query(func.count(column)).filter(p).scalar()] *)
Definition count {A} (p : A -> bool) (rows : list A) : Z :=
  Z.of_nat (List.length (filter p rows)).

Definition get_platform_stats (current_admin : User.t)
  : Handler Error PlatformStats.t :=
  db <- query ;;
  let total_users := count (fun _ => true) (users db) in
  let active_users := count User.is_active (users db) in
  let total_skills := count (fun _ => true) (skills db) in
  let pending_skills := count (fun s => negb (Skill.is_approved s)) (skills db) in
  let total_swaps := count (fun _ => true) (swap_requests db) in
  let pending_swaps :=
    count (fun r => (SwapRequest.status r =? "pending")%string) (swap_requests db) in
  let completed_swaps :=
    count (fun r => (SwapRequest.status r =? "completed")%string) (swap_requests db) in
  ret (PlatformStats.mk
         total_users active_users (total_users - active_users)
         total_skills (total_skills - pending_skills) pending_skills
         total_swaps pending_swaps completed_swaps).

(** ** Properties of the other routes *)

(** What an update never writes: the id, the parties and the skills. *)
Definition terms (r : SwapRequest.t) : Z * Z * Z * Z * Z :=
  (SwapRequest.id r, SwapRequest.requester_id r, SwapRequest.requested_id r,
   SwapRequest.skill_offered_id r, SwapRequest.skill_wanted_id r).

(** The primary key of the swap requests: no id twice. *)
Definition unique_ids (db : DB) : Prop :=
  NoDup (map SwapRequest.id (swap_requests db)).

(** The row of the association table that joins the user and the skill. *)
Definition joined (user_id skill_id : Z) (p : Z * Z) : bool :=
  (fst p =? user_id) && (snd p =? skill_id).


(** * Proofs *)

Ltac run_handler :=
  unfold bind, query, raise, ret, commit; cbn [fst snd].

(** ** Tables *)

Section Tables.

Context {A : Type}.

Lemma find_none_filter (p : A -> bool) (l : list A) :
  find p l = None -> filter p l = [].
Proof.
  induction l as [|x l IH]; cbn; [reflexivity|].
  destruct (p x); [discriminate | exact IH].
Qed.

Lemma find_some_in (p : A -> bool) (l : list A) (x : A) :
  In x l -> p x = true -> exists y, find p l = Some y.
Proof.
  intros Hin Hp.
  destruct (find p l) as [y|] eqn:E; [now exists y|].
  now rewrite (find_none _ _ E x Hin) in Hp.
Qed.

Lemma length_filter_map_le (p : A -> bool) (f : A -> A) (l : list A) :
  (forall x, p (f x) = true -> p x = true) ->
  (List.length (filter p (map f l)) <= List.length (filter p l))%nat.
Proof.
  intros Hf. induction l as [|x l IH]; cbn; [lia|].
  destruct (p (f x)) eqn:E.
  - rewrite (Hf x E). cbn. lia.
  - destruct (p x); cbn; lia.
Qed.

Lemma length_filter_filter_le (p q : A -> bool) (l : list A) :
  (List.length (filter p (filter q l)) <= List.length (filter p l))%nat.
Proof.
  induction l as [|x l IH]; cbn; [lia|].
  destruct (q x), (p x) eqn:E; cbn; rewrite ?E; cbn; lia.
Qed.

End Tables.

(** ** update_swap_request *)

Lemma validate_permissions_store update_data r current_user db :
  fst (validate_permissions update_data r current_user db) = db.
Proof.
  unfold validate_permissions.
  repeat match goal with |- context [if ?b then _ else _] => destruct b end;
    reflexivity.
Qed.

(** The gate raises nothing but 403. *)
Lemma validate_permissions_raises update_data r current_user db e :
  snd (validate_permissions update_data r current_user db) = Raise e ->
  exists detail, e = HTTPException 403 detail.
Proof.
  unfold validate_permissions.
  repeat match goal with |- context [if ?b then _ else _] => destruct b end;
    cbn; intros H; inversion H; eauto.
Qed.

(** The gate passes exactly for the actors of the transition table, and for
    every actor when the new status is not a governed one. *)
Lemma validate_permissions_ok update_data r current_user db :
  snd (validate_permissions update_data r current_user db) = Ok tt <->
  (authorized_actor (SwapRequestUpdate.status update_data) r (User.id current_user)
   \/ mem_string (SwapRequestUpdate.status update_data) governed = false).
Proof.
  unfold validate_permissions, authorized_actor, governed, mem_string.
  set (s := SwapRequestUpdate.status update_data).
  cbn [existsb].
  destruct (String.eqb_spec s "accepted") as [Ea|Na];
    [|destruct (String.eqb_spec s "rejected") as [Er|Nr];
      [|destruct (String.eqb_spec s "cancelled") as [Ec|Nc];
        [|destruct (String.eqb_spec s "completed") as [Ed|Nd]]]];
    cbn [orb];
    repeat match goal with
           | |- context [?a =? ?b] => destruct (Z.eqb_spec a b)
           end;
    cbn; split; intros H; try reflexivity; try discriminate;
      try (left; tauto);
      try (right; reflexivity);
      try (exfalso;
           repeat match goal with
                  | H : _ \/ _ |- _ => destruct H
                  | H : _ /\ _ |- _ => destruct H
                  end;
           subst; congruence).
Qed.

(** The handler, once the request is found: the gate, then the write. *)
Lemma update_swap_request_found db request_id update_data current_user r :
  find (fun r => SwapRequest.id r =? request_id) (swap_requests db) = Some r ->
  update_swap_request request_id update_data current_user db =
  match snd (validate_permissions update_data r current_user db) with
  | Ok _ =>
    (with_swap_requests db (update_rows request_id update_data (swap_requests db)),
     Ok (apply_update update_data r))
  | Raise e => (db, Raise e)
  end.
Proof.
  intros Hfind.
  assert (Hid : SwapRequest.id r = request_id).
  { apply find_some in Hfind. destruct Hfind as [_ H]. now apply Z.eqb_eq. }
  unfold update_swap_request. run_handler. rewrite Hfind.
  pose proof (validate_permissions_store update_data r current_user db) as Hst.
  destruct (validate_permissions update_data r current_user db) as [db' [[]|e]];
    cbn in *; subst; reflexivity.
Qed.

(** After the write, the request of that id is the updated one. *)
Lemma find_update_rows request_id update_data rows r :
  find (fun r => SwapRequest.id r =? request_id) rows = Some r ->
  find (fun r => SwapRequest.id r =? request_id)
       (update_rows request_id update_data rows)
  = Some (apply_update update_data r).
Proof.
  unfold update_rows.
  induction rows as [|x rows IH]; cbn; [discriminate|].
  destruct (SwapRequest.id x =? request_id) eqn:E; cbn.
  - rewrite E. intros H. now inversion H.
  - rewrite E. exact IH.
Qed.

(** The outcome of an update of an existing request, from the gate. *)
Lemma update_swap_request_gate db request_id update_data current_user r :
  find (fun r => SwapRequest.id r =? request_id) (swap_requests db) = Some r ->
  let out := update_swap_request request_id update_data current_user db in
  (succeeded out <->
   snd (validate_permissions update_data r current_user db) = Ok tt)
  /\ (snd (validate_permissions update_data r current_user db) <> Ok tt ->
      fails_with out Forbidden /\ fst out = db).
Proof.
  intros Hfind out. subst out.
  rewrite (update_swap_request_found _ _ _ _ _ Hfind).
  pose proof (validate_permissions_raises update_data r current_user db) as Hr.
  destruct (snd (validate_permissions update_data r current_user db)) as [[]|e].
  - split; [split; [reflexivity | intros _; eexists; reflexivity]|].
    intros H. now contradiction H.
  - destruct (Hr e eq_refl) as [detail ->].
    split; [split; [intros [a H]; discriminate | discriminate]|].
    intros _. split; [|reflexivity].
    eexists. split; reflexivity.
Qed.

(** C2 (P4, actor-gated transitions). For an existing request, an update to
    accepted or rejected succeeds exactly when the actor is the requested
    party; to cancelled, exactly when the actor is the requester; to
    completed, exactly when the actor is one of the two parties. Every other
    actor fails with Forbidden (403). *)
Theorem update_actor_gated db request_id update_data current_user r :
  find (fun r => SwapRequest.id r =? request_id) (swap_requests db) = Some r ->
  let out := update_swap_request request_id update_data current_user db in
  let new_status := SwapRequestUpdate.status update_data in
  let actor := User.id current_user in
  (new_status = "accepted" \/ new_status = "rejected" ->
   (succeeded out <-> SwapRequest.requested_id r = actor)
   /\ (SwapRequest.requested_id r <> actor -> fails_with out Forbidden))
  /\ (new_status = "cancelled" ->
      (succeeded out <-> SwapRequest.requester_id r = actor)
      /\ (SwapRequest.requester_id r <> actor -> fails_with out Forbidden))
  /\ (new_status = "completed" ->
      (succeeded out <->
       SwapRequest.requester_id r = actor \/ SwapRequest.requested_id r = actor)
      /\ (~ (SwapRequest.requester_id r = actor
             \/ SwapRequest.requested_id r = actor) ->
          fails_with out Forbidden)).
Proof.
  intros Hfind out new_status actor.
  destruct (update_swap_request_gate db request_id update_data current_user r Hfind)
    as [Hok Hno].
  fold out in Hok, Hno.
  pose proof (validate_permissions_ok update_data r current_user db) as Hgate.
  fold new_status actor in Hgate.
  assert (Hauth : forall P : Prop,
             mem_string new_status governed = true ->
             (authorized_actor new_status r actor <-> P) ->
             (succeeded out <-> P) /\ (~ P -> fails_with out Forbidden)).
  { intros P Hgov HP. split.
    - rewrite Hok, Hgate, <- HP. split; [|tauto].
      intros [H|H]; [exact H | congruence].
    - intros HnP. apply Hno. rewrite Hgate, HP. intros [H|H]; [tauto | congruence]. }
  unfold authorized_actor in Hauth.
  split; [|split]; intros Hs.
  - apply Hauth; [destruct Hs as [-> | ->]; reflexivity|].
    split; [|tauto].
    intros [[_ H]|[[E _]|[E _]]]; [exact H| |];
      destruct Hs as [Hs|Hs]; rewrite Hs in E; discriminate.
  - apply Hauth; [rewrite Hs; reflexivity|].
    split; [|tauto].
    intros [[[E|E] _]|[[_ H]|[E _]]]; [| |exact H|]; rewrite Hs in E; discriminate.
  - apply Hauth; [rewrite Hs; reflexivity|].
    split; [|tauto].
    intros [[[E|E] _]|[[E _]|[_ H]]]; [| | |exact H]; rewrite Hs in E; discriminate.
Qed.

(** Alice's pending request, accepted: Bob passes the gate, Carol does not. *)
Lemma update_actor_gated_witness :
  succeeded (update_swap_request 1 (Sample.set_status "accepted") Sample.bob
                                 Sample.db_pending)
  /\ fails_with (update_swap_request 1 (Sample.set_status "cancelled") Sample.bob
                                     Sample.db_pending) Forbidden.
Proof.
  pose proof (update_actor_gated
                Sample.db_pending 1 (Sample.set_status "accepted") Sample.bob
                (new_swap_request Sample.db0 Sample.guitar_for_spanish Sample.alice)
                eq_refl) as (Haccept & _ & _).
  pose proof (update_actor_gated
                Sample.db_pending 1 (Sample.set_status "cancelled") Sample.bob
                (new_swap_request Sample.db0 Sample.guitar_for_spanish Sample.alice)
                eq_refl) as (_ & Hcancel & _).
  split.
  - apply Haccept; [left|]; reflexivity.
  - apply Hcancel; [reflexivity | discriminate].
Defined.

(** C3. For an existing request and a new status outside accepted, rejected,
    cancelled, completed, the update makes no authorization check: whoever the
    actor is, it succeeds and stores the new status, and the message when the
    body carries one. *)
Theorem update_ungoverned_status_unchecked
        db request_id update_data current_user r :
  find (fun r => SwapRequest.id r =? request_id) (swap_requests db) = Some r ->
  mem_string (SwapRequestUpdate.status update_data) governed = false ->
  let out := update_swap_request request_id update_data current_user db in
  snd out = Ok (apply_update update_data r)
  /\ find (fun r => SwapRequest.id r =? request_id) (swap_requests (fst out))
     = Some (apply_update update_data r)
  /\ SwapRequest.status (apply_update update_data r)
     = SwapRequestUpdate.status update_data
  /\ (forall value, SwapRequestUpdate.message update_data = Some value ->
                    SwapRequest.message (apply_update update_data r) = value).
Proof.
  intros Hfind Hgov out. subst out.
  rewrite (update_swap_request_found _ _ _ _ _ Hfind).
  assert (Hok : snd (validate_permissions update_data r current_user db) = Ok tt).
  { apply validate_permissions_ok. now right. }
  rewrite Hok. cbn [fst snd swap_requests with_swap_requests].
  repeat split.
  - now apply find_update_rows.
  - intros value Hm. cbn. now rewrite Hm.
Qed.

(** Carol, a stranger to Alice's request, sets it to "archived". *)
Lemma update_ungoverned_status_unchecked_witness :
  find (fun r => SwapRequest.id r =? 1)
       (swap_requests
          (fst (update_swap_request
                  1 (SwapRequestUpdate.mk "archived" (Some (Some "mine now")))
                  Sample.carol Sample.db_pending)))
  = Some (SwapRequest.mk 1 1 2 1 2 (Some "mine now") "archived").
Proof.
  exact (proj1 (proj2 (update_ungoverned_status_unchecked
                         Sample.db_pending 1
                         (SwapRequestUpdate.mk "archived" (Some (Some "mine now")))
                         Sample.carol
                         (new_swap_request Sample.db0 Sample.guitar_for_spanish
                                           Sample.alice)
                         eq_refl eq_refl))).
Defined.

(** C5. The update looks at the actor, never at the current status: for an
    existing request in any status, a governed new status applied by the
    actor the transition table names succeeds and is stored. *)
Theorem update_ignores_current_status
        db request_id update_data current_user r :
  find (fun r => SwapRequest.id r =? request_id) (swap_requests db) = Some r ->
  authorized_actor (SwapRequestUpdate.status update_data) r (User.id current_user) ->
  let out := update_swap_request request_id update_data current_user db in
  snd out = Ok (apply_update update_data r)
  /\ find (fun r => SwapRequest.id r =? request_id) (swap_requests (fst out))
     = Some (apply_update update_data r)
  /\ SwapRequest.status (apply_update update_data r)
     = SwapRequestUpdate.status update_data.
Proof.
  intros Hfind Hauth out. subst out.
  rewrite (update_swap_request_found _ _ _ _ _ Hfind).
  assert (Hok : snd (validate_permissions update_data r current_user db) = Ok tt).
  { apply validate_permissions_ok. now left. }
  rewrite Hok. cbn [fst snd swap_requests with_swap_requests].
  repeat split. now apply find_update_rows.
Qed.

(** Bob accepts the request Alice has cancelled. *)
Lemma update_ignores_current_status_witness :
  find (fun r => SwapRequest.id r =? 1) (swap_requests Sample.db_cancelled)
  = Some (SwapRequest.mk 1 1 2 1 2 (Some "Trade?") "cancelled")
  /\ find (fun r => SwapRequest.id r =? 1)
          (swap_requests
             (fst (update_swap_request 1 (Sample.set_status "accepted")
                                       Sample.bob Sample.db_cancelled)))
     = Some (SwapRequest.mk 1 1 2 1 2 (Some "Trade?") "accepted").
Proof.
  split; [reflexivity|].
  refine (proj1 (proj2 (update_ignores_current_status
                          Sample.db_cancelled 1 (Sample.set_status "accepted")
                          Sample.bob
                          (SwapRequest.mk 1 1 2 1 2 (Some "Trade?") "cancelled")
                          eq_refl _))).
  left. split; [left|]; reflexivity.
Defined.

(** ** delete_swap_request *)

Lemma delete_swap_request_found db request_id current_user r :
  find (fun r => SwapRequest.id r =? request_id) (swap_requests db) = Some r ->
  delete_swap_request request_id current_user db =
  if negb (SwapRequest.requester_id r =? User.id current_user) then
    (db, Raise (HTTPException 403 "Only the requester can delete their own requests"))
  else if negb (SwapRequest.status r =? "pending")%string then
    (db, Raise (HTTPException 400 "Can only delete pending requests"))
  else
    (with_swap_requests db (delete_rows request_id (swap_requests db)),
     Ok "Swap request deleted successfully").
Proof.
  intros Hfind.
  assert (Hid : SwapRequest.id r = request_id).
  { apply find_some in Hfind. destruct Hfind as [_ H]. now apply Z.eqb_eq. }
  unfold delete_swap_request. run_handler. rewrite Hfind, Hid.
  destruct (negb _); [reflexivity|].
  destruct (negb _); reflexivity.
Qed.

(** C7 (P5, deletion gating). For an existing request, the deletion succeeds
    exactly when the actor is the requester and the status is pending. Another
    actor fails with Forbidden, whatever the status; the requester of a
    request that is not pending fails with InvalidOperation; a failed deletion
    leaves the store, and in it the request, as they were. *)
Theorem delete_gated db request_id current_user r :
  find (fun r => SwapRequest.id r =? request_id) (swap_requests db) = Some r ->
  let out := delete_swap_request request_id current_user db in
  let actor := User.id current_user in
  (succeeded out <->
   SwapRequest.requester_id r = actor /\ SwapRequest.status r = "pending")
  /\ (SwapRequest.requester_id r <> actor ->
      fails_with out Forbidden /\ fst out = db)
  /\ (SwapRequest.requester_id r = actor ->
      SwapRequest.status r <> "pending" ->
      fails_with out InvalidOperation /\ fst out = db)
  /\ (~ succeeded out ->
      find (fun r => SwapRequest.id r =? request_id) (swap_requests (fst out))
      = Some r).
Proof.
  intros Hfind out actor. subst out actor.
  rewrite (delete_swap_request_found _ _ _ _ Hfind).
  destruct (Z.eqb_spec (SwapRequest.requester_id r) (User.id current_user)) as [Ea|Na];
    [destruct (String.eqb_spec (SwapRequest.status r) "pending") as [Ep|Np]|];
    cbn [negb fst snd].
  - split; [split; [tauto | intros _; eexists; reflexivity]|].
    split; [tauto|]. split; [tauto|].
    intros H. contradiction H. eexists. reflexivity.
  - split; [split; [intros [a H]; discriminate | tauto]|].
    split; [tauto|]. split; [|intros _; exact Hfind].
    intros _ _. split; [|reflexivity]. eexists. split; reflexivity.
  - split; [split; [intros [a H]; discriminate | tauto]|].
    split; [|split; [tauto | intros _; exact Hfind]].
    intros _. split; [|reflexivity]. eexists. split; reflexivity.
Qed.

(** Bob may not delete Alice's cancelled request, nor may Alice; while it
    was pending Alice could. *)
Lemma delete_gated_witness :
  fails_with (delete_swap_request 1 Sample.bob Sample.db_cancelled) Forbidden
  /\ fails_with (delete_swap_request 1 Sample.alice Sample.db_cancelled)
                InvalidOperation
  /\ succeeded (delete_swap_request 1 Sample.alice Sample.db_pending).
Proof.
  pose proof (delete_gated Sample.db_cancelled 1 Sample.bob
                (SwapRequest.mk 1 1 2 1 2 (Some "Trade?") "cancelled") eq_refl)
    as (_ & Hbob & _).
  pose proof (delete_gated Sample.db_cancelled 1 Sample.alice
                (SwapRequest.mk 1 1 2 1 2 (Some "Trade?") "cancelled") eq_refl)
    as (_ & _ & Halice & _).
  pose proof (delete_gated Sample.db_pending 1 Sample.alice
                (SwapRequest.mk 1 1 2 1 2 (Some "Trade?") "pending") eq_refl)
    as (Hok & _).
  split; [|split].
  - apply Hbob. discriminate.
  - apply Halice; [reflexivity | discriminate].
  - apply Hok. split; reflexivity.
Defined.

(** ** create_swap_request *)

(** The handler once the requested user and the two skills are found, the
    user is active and is not the requester: the two ownership checks, the
    duplicate query, the insert. *)
Lemma create_swap_request_found
      db swap_request current_user requested_user skill_offered skill_wanted :
  find (fun u => User.id u =? SwapRequestCreate.requested_id swap_request)
       (users db) = Some requested_user ->
  User.is_active requested_user = true ->
  SwapRequestCreate.requested_id swap_request <> User.id current_user ->
  find (fun s => Skill.id s =? SwapRequestCreate.skill_offered_id swap_request)
       (skills db) = Some skill_offered ->
  find (fun s => Skill.id s =? SwapRequestCreate.skill_wanted_id swap_request)
       (skills db) = Some skill_wanted ->
  create_swap_request swap_request current_user db =
  if negb (offers db current_user skill_offered) then
    (db, Raise (HTTPException 400
                  "You don't offer the skill you're proposing to teach"))
  else if negb (offers db requested_user skill_wanted) then
    (db, Raise (HTTPException 400
                  "The requested user doesn't offer the skill you want to learn"))
  else
    match find (pending_with (User.id current_user)
                             (SwapRequestCreate.requested_id swap_request)
                             (SwapRequestCreate.skill_offered_id swap_request)
                             (SwapRequestCreate.skill_wanted_id swap_request))
               (swap_requests db) with
    | Some _ => (db, Raise conflict)
    | None =>
      (with_swap_requests
         db (swap_requests db ++ [new_swap_request db swap_request current_user]),
       Ok (new_swap_request db swap_request current_user))
    end.
Proof.
  intros Hu Ha Hself Hso Hsw.
  unfold create_swap_request, offers. run_handler.
  rewrite Hu, Ha, Hso, Hsw. cbn [negb].
  destruct (Z.eqb_spec (SwapRequestCreate.requested_id swap_request)
                       (User.id current_user)); [contradiction|].
  destruct (negb _); [reflexivity|].
  destruct (negb _); [reflexivity|].
  destruct (find _ (swap_requests db)); reflexivity.
Qed.

(** Every call either raises and leaves the store as it was, or found no
    pending duplicate and appended the new pending request. *)
Lemma create_swap_request_outcome db swap_request current_user :
  (fst (create_swap_request swap_request current_user db) = db
   /\ exists e, snd (create_swap_request swap_request current_user db) = Raise e)
  \/ (find (pending_with (User.id current_user)
                         (SwapRequestCreate.requested_id swap_request)
                         (SwapRequestCreate.skill_offered_id swap_request)
                         (SwapRequestCreate.skill_wanted_id swap_request))
           (swap_requests db) = None
      /\ create_swap_request swap_request current_user db
         = (with_swap_requests
              db (swap_requests db ++ [new_swap_request db swap_request current_user]),
            Ok (new_swap_request db swap_request current_user))).
Proof.
  unfold create_swap_request. run_handler.
  repeat match goal with
         | |- context [match find ?p ?l with _ => _ end] =>
           let E := fresh "E" in destruct (find p l) eqn:E
         | |- context [if ?b then _ else _] => destruct b
         end;
    cbn [fst snd]; try (left; split; [reflexivity | eexists; reflexivity]).
  right. split; reflexivity.
Qed.

(** C6 (P3, skill-ownership gating). When the requested user exists and is
    active, is not the requester, both skills exist and no pending request has
    the same terms, the creation succeeds exactly when the requester offers
    the skill offered and the requested user offers the skill wanted; it then
    stores the new pending request. When either fails, the call fails with
    InvalidOperation and the store is as it was. *)
Theorem create_swap_request_ownership_gated
        db swap_request current_user requested_user skill_offered skill_wanted :
  find (fun u => User.id u =? SwapRequestCreate.requested_id swap_request)
       (users db) = Some requested_user ->
  User.is_active requested_user = true ->
  SwapRequestCreate.requested_id swap_request <> User.id current_user ->
  find (fun s => Skill.id s =? SwapRequestCreate.skill_offered_id swap_request)
       (skills db) = Some skill_offered ->
  find (fun s => Skill.id s =? SwapRequestCreate.skill_wanted_id swap_request)
       (skills db) = Some skill_wanted ->
  ~ duplicate_pending db swap_request current_user ->
  let out := create_swap_request swap_request current_user db in
  let both :=
    offers db current_user skill_offered = true
    /\ offers db requested_user skill_wanted = true in
  (succeeded out <-> both)
  /\ (both ->
      out = (with_swap_requests
               db (swap_requests db ++ [new_swap_request db swap_request current_user]),
             Ok (new_swap_request db swap_request current_user)))
  /\ (~ both -> fails_with out InvalidOperation /\ fst out = db).
Proof.
  intros Hu Ha Hself Hso Hsw Hdup out both. subst out both.
  rewrite (create_swap_request_found _ _ _ _ _ _ Hu Ha Hself Hso Hsw).
  destruct (find _ (swap_requests db)) as [r|] eqn:Hfind.
  { contradiction Hdup. apply find_some in Hfind. now exists r. }
  destruct (offers db current_user skill_offered);
    [destruct (offers db requested_user skill_wanted)|]; cbn [negb].
  - split; [split; [tauto | intros _; eexists; reflexivity]|].
    split; [reflexivity|]. intros H. contradiction H. now split.
  - split; [split; [intros [a H]; discriminate | intros [_ H]; discriminate]|].
    split; [intros [_ H]; discriminate|].
    intros _. split; [|reflexivity]. eexists. split; reflexivity.
  - split; [split; [intros [a H]; discriminate | intros [H _]; discriminate]|].
    split; [intros [H _]; discriminate|].
    intros _. split; [|reflexivity]. eexists. split; reflexivity.
Qed.

Lemma no_duplicate_in_empty db swap_request current_user :
  swap_requests db = [] -> ~ duplicate_pending db swap_request current_user.
Proof. intros E [r [Hin _]]. rewrite E in Hin. exact Hin. Qed.

(** Alice, who offers Guitar, may propose it for Bob's Spanish; Carol, who
    does not, may not. *)
Lemma create_swap_request_ownership_gated_witness :
  succeeded (create_swap_request Sample.guitar_for_spanish Sample.alice Sample.db0)
  /\ fails_with (create_swap_request Sample.guitar_for_spanish Sample.carol Sample.db0)
                InvalidOperation.
Proof.
  pose proof (create_swap_request_ownership_gated
                Sample.db0 Sample.guitar_for_spanish Sample.alice
                Sample.bob Sample.guitar Sample.spanish
                eq_refl eq_refl ltac:(discriminate) eq_refl eq_refl
                (no_duplicate_in_empty Sample.db0 _ _ eq_refl)) as (Halice & _).
  pose proof (create_swap_request_ownership_gated
                Sample.db0 Sample.guitar_for_spanish Sample.carol
                Sample.bob Sample.guitar Sample.spanish
                eq_refl eq_refl ltac:(discriminate) eq_refl eq_refl
                (no_duplicate_in_empty Sample.db0 _ _ eq_refl)) as (_ & _ & Hcarol).
  split.
  - apply Halice. split; reflexivity.
  - apply Hcarol. intros [H _]. discriminate H.
Defined.

(** ** Failures leave the store untouched *)

Lemma update_swap_request_raise db request_id update_data current_user e :
  snd (update_swap_request request_id update_data current_user db) = Raise e ->
  fst (update_swap_request request_id update_data current_user db) = db.
Proof.
  destruct (find (fun r => SwapRequest.id r =? request_id) (swap_requests db))
    as [r|] eqn:Hfind.
  - rewrite (update_swap_request_found _ _ _ _ _ Hfind).
    destruct (snd (validate_permissions update_data r current_user db));
      [discriminate | reflexivity].
  - unfold update_swap_request. run_handler. now rewrite Hfind.
Qed.

Lemma delete_swap_request_raise db request_id current_user e :
  snd (delete_swap_request request_id current_user db) = Raise e ->
  fst (delete_swap_request request_id current_user db) = db.
Proof.
  destruct (find (fun r => SwapRequest.id r =? request_id) (swap_requests db))
    as [r|] eqn:Hfind.
  - rewrite (delete_swap_request_found _ _ _ _ Hfind).
    destruct (negb _); [reflexivity|].
    destruct (negb _); [reflexivity | discriminate].
  - unfold delete_swap_request. run_handler. now rewrite Hfind.
Qed.

Lemma create_swap_request_raise db swap_request current_user e :
  snd (create_swap_request swap_request current_user db) = Raise e ->
  fst (create_swap_request swap_request current_user db) = db.
Proof.
  destruct (create_swap_request_outcome db swap_request current_user)
    as [[H _]|[_ H]]; [intros _; exact H|].
  rewrite H. discriminate.
Qed.

(** C9. Whenever an operation of the Swap Request Engine (create, update,
    delete) fails, with whatever error, the store is exactly as it was before
    the call. *)
Theorem swap_engine_failure_leaves_store (c : Call) (db : DB) (e : Error) :
  swap_engine_call c = true ->
  snd (handle c db) = Some e ->
  serve c db = db.
Proof.
  intros Hc Hraise. unfold serve.
  destruct c; try discriminate Hc; cbn [handle outcome fst snd] in *.
  - destruct (snd (create_swap_request swap_request current_user db)) eqn:E;
      [discriminate|]. eapply create_swap_request_raise, E.
  - destruct (snd (update_swap_request request_id update_data current_user db)) eqn:E;
      [discriminate|]. eapply update_swap_request_raise, E.
  - destruct (snd (delete_swap_request request_id current_user db)) eqn:E;
      [discriminate|]. eapply delete_swap_request_raise, E.
Qed.

(** Bob's refused cancellation leaves Alice's pending request in place. *)
Lemma swap_engine_failure_leaves_store_witness :
  serve (UpdateSwapRequest 1 (Sample.set_status "cancelled") Sample.bob)
        Sample.db_pending
  = Sample.db_pending.
Proof.
  exact (swap_engine_failure_leaves_store
           (UpdateSwapRequest 1 (Sample.set_status "cancelled") Sample.bob)
           Sample.db_pending
           (HTTPException 403 "Only the requester can cancel requests")
           eq_refl eq_refl).
Defined.

(** ** At most one pending request for each tuple *)

Lemma at_most_one_pending_same_rows db db' :
  swap_requests db' = swap_requests db ->
  at_most_one_pending db -> at_most_one_pending db'.
Proof. unfold at_most_one_pending. intros ->. trivial. Qed.

Lemma pending_with_inj a b c d a' b' c' d' r :
  pending_with a b c d r = true ->
  pending_with a' b' c' d' r = true ->
  a = a' /\ b = b' /\ c = c' /\ d = d'.
Proof.
  unfold pending_with, tuple_is. intros H H'.
  repeat match goal with
         | H : _ && _ = true |- _ => apply andb_prop in H; destruct H
         | H : (_ =? _) = true |- _ => apply Z.eqb_eq in H
         end.
  repeat split; congruence.
Qed.

Lemma create_swap_request_at_most_one db swap_request current_user :
  at_most_one_pending db ->
  at_most_one_pending (fst (create_swap_request swap_request current_user db)).
Proof.
  intros Hinv.
  destruct (create_swap_request_outcome db swap_request current_user)
    as [[H _]|[Hnone H]]; rewrite H; [exact Hinv|].
  intros a b c d. cbn [fst swap_requests with_swap_requests].
  rewrite filter_app, length_app. cbn [filter].
  destruct (pending_with a b c d (new_swap_request db swap_request current_user))
    eqn:Hnew; cbn [List.length].
  - assert (Hsame : pending_with
                      (User.id current_user)
                      (SwapRequestCreate.requested_id swap_request)
                      (SwapRequestCreate.skill_offered_id swap_request)
                      (SwapRequestCreate.skill_wanted_id swap_request)
                      (new_swap_request db swap_request current_user) = true).
    { unfold pending_with, tuple_is, is_pending. cbn.
      now rewrite !Z.eqb_refl. }
    destruct (pending_with_inj _ _ _ _ _ _ _ _ _ Hnew Hsame) as (-> & -> & -> & ->).
    rewrite (find_none_filter _ _ Hnone). cbn. lia.
  - specialize (Hinv a b c d). lia.
Qed.

Lemma update_swap_request_at_most_one db request_id update_data current_user :
  SwapRequestUpdate.status update_data <> "pending" ->
  at_most_one_pending db ->
  at_most_one_pending
    (fst (update_swap_request request_id update_data current_user db)).
Proof.
  intros Hs Hinv.
  destruct (find (fun r => SwapRequest.id r =? request_id) (swap_requests db))
    as [r|] eqn:Hfind.
  - rewrite (update_swap_request_found _ _ _ _ _ Hfind).
    destruct (snd (validate_permissions update_data r current_user db)) as [[]|?];
      [|exact Hinv].
    intros a b c d. cbn [fst swap_requests with_swap_requests].
    etransitivity; [|exact (Hinv a b c d)].
    apply length_filter_map_le. intros x.
    destruct (SwapRequest.id x =? request_id); [|trivial].
    unfold pending_with, is_pending. cbn [apply_update SwapRequest.status].
    destruct (String.eqb_spec (SwapRequestUpdate.status update_data) "pending");
      [contradiction|].
    rewrite andb_false_r. discriminate.
  - unfold update_swap_request. run_handler. now rewrite Hfind.
Qed.

Lemma delete_swap_request_at_most_one db request_id current_user :
  at_most_one_pending db ->
  at_most_one_pending (fst (delete_swap_request request_id current_user db)).
Proof.
  intros Hinv.
  destruct (find (fun r => SwapRequest.id r =? request_id) (swap_requests db))
    as [r|] eqn:Hfind.
  - rewrite (delete_swap_request_found _ _ _ _ Hfind).
    destruct (negb _); [exact Hinv|].
    destruct (negb _); [exact Hinv|].
    intros a b c d. cbn [fst swap_requests with_swap_requests].
    etransitivity; [|exact (Hinv a b c d)].
    apply length_filter_filter_le.
  - unfold delete_swap_request. run_handler. now rewrite Hfind.
Qed.

(** The skill routes do not write the table of swap requests. *)
Lemma create_skill_rows db skill current_user :
  swap_requests (fst (create_skill skill current_user db)) = swap_requests db.
Proof.
  unfold create_skill, add_skill. run_handler.
  repeat match goal with
         | |- context [match find ?p ?l with _ => _ end] => destruct (find p l)
         | |- context [if ?b then _ else _] => destruct b
         end; reflexivity.
Qed.

Lemma add_skill_offered_rows db skill_id current_user :
  swap_requests (fst (add_skill_offered skill_id current_user db)) = swap_requests db.
Proof.
  unfold add_skill_offered. run_handler.
  repeat match goal with
         | |- context [match find ?p ?l with _ => _ end] => destruct (find p l)
         | |- context [if ?b then _ else _] => destruct b
         end; reflexivity.
Qed.

Lemma remove_skill_offered_rows db skill_id current_user :
  swap_requests (fst (remove_skill_offered skill_id current_user db)) = swap_requests db.
Proof.
  unfold remove_skill_offered. run_handler.
  repeat match goal with
         | |- context [match find ?p ?l with _ => _ end] => destruct (find p l)
         | |- context [if ?b then _ else _] => destruct b
         end; reflexivity.
Qed.

Lemma serve_at_most_one (c : Call) (db : DB) :
  sets_pending c = false ->
  at_most_one_pending db -> at_most_one_pending (serve c db).
Proof.
  intros Hc Hinv. unfold serve.
  destruct c; cbn [handle outcome fst].
  - now apply create_swap_request_at_most_one.
  - apply update_swap_request_at_most_one; [|exact Hinv].
    cbn in Hc. now apply String.eqb_neq.
  - now apply delete_swap_request_at_most_one.
  - eapply at_most_one_pending_same_rows; [apply create_skill_rows | exact Hinv].
  - eapply at_most_one_pending_same_rows; [apply add_skill_offered_rows | exact Hinv].
  - eapply at_most_one_pending_same_rows; [apply remove_skill_offered_rows | exact Hinv].
Qed.

Lemma serve_all_at_most_one (calls : list Call) (db : DB) :
  forallb (fun c => negb (sets_pending c)) calls = true ->
  at_most_one_pending db -> at_most_one_pending (serve_all calls db).
Proof.
  unfold serve_all. revert db.
  induction calls as [|c calls IH]; intros db Hcalls Hinv; cbn; [exact Hinv|].
  cbn in Hcalls. apply andb_prop in Hcalls. destruct Hcalls as [Hc Hcalls].
  apply IH; [exact Hcalls|].
  apply serve_at_most_one; [|exact Hinv].
  now destruct (sets_pending c).
Qed.

(** ** The duplicate check *)

Ltac other_kind :=
  let e := fresh "e" in
  let He := fresh "He" in
  let Hk := fresh "Hk" in
  intros [e [He Hk]]; cbn [fst snd] in He; inversion He; subst e;
  cbv in Hk; discriminate Hk.

(** The call fails with Conflict exactly when steps 1 to 5 hold and the
    duplicate query finds a row. *)
Lemma create_swap_request_conflict db swap_request current_user :
  fails_with (create_swap_request swap_request current_user db) Conflict <->
  passes_steps_1_to_5 db swap_request current_user
  /\ duplicate_pending db swap_request current_user.
Proof.
  split.
  - unfold create_swap_request. run_handler.
    destruct (find _ (users db)) as [requested_user|] eqn:Hu; [|other_kind].
    destruct (User.is_active requested_user) eqn:Ha; cbn [negb]; [|other_kind].
    destruct (Z.eqb_spec (SwapRequestCreate.requested_id swap_request)
                         (User.id current_user)) as [|Hself]; [other_kind|].
    destruct (find (fun s => Skill.id s =? SwapRequestCreate.skill_offered_id swap_request)
                   (skills db)) as [skill_offered|] eqn:Hso; [|other_kind].
    destruct (find (fun s => Skill.id s =? SwapRequestCreate.skill_wanted_id swap_request)
                   (skills db)) as [skill_wanted|] eqn:Hsw; [|other_kind].
    destruct (skill_in skill_offered (skills_offered db current_user)) eqn:Ho;
      cbn [negb]; [|other_kind].
    destruct (skill_in skill_wanted (skills_offered db requested_user)) eqn:Hw;
      cbn [negb]; [|other_kind].
    destruct (find _ (swap_requests db)) as [r|] eqn:Hdup.
    + intros _. split.
      * exists requested_user, skill_offered, skill_wanted.
        unfold offers. repeat split; assumption.
      * exists r. now apply find_some in Hdup.
    + intros [e [He _]]. discriminate He.
  - intros [(requested_user & skill_offered & skill_wanted
             & Hu & Ha & Hself & Hso & Hsw & Ho & Hw) (r & Hin & Hr)].
    rewrite (create_swap_request_found _ _ _ _ _ _ Hu Ha Hself Hso Hsw).
    rewrite Ho, Hw. cbn [negb].
    destruct (find_some_in _ _ _ Hin Hr) as [r' ->].
    exists conflict. split; reflexivity.
Qed.

(** C1, as the code has it. When a pending request with the same
    (requester, requested, skill offered, skill wanted) exists, the creation
    fails and stores nothing; it fails with Conflict exactly when steps 1 to 5
    of the validation sequence hold. Consequently creation, deletion and every update to a
    status other than pending, executed one after the other, keep at most one
    pending request for each tuple. *)
Theorem create_rejects_pending_duplicate
        (db : DB) (swap_request : SwapRequestCreate.t) (current_user : User.t)
        (calls : list Call) :
  (duplicate_pending db swap_request current_user ->
   let out := create_swap_request swap_request current_user db in
   fst out = db
   /\ (exists e, snd out = Raise e)
   /\ (fails_with out Conflict <-> passes_steps_1_to_5 db swap_request current_user))
  /\ (at_most_one_pending db ->
      forallb (fun c => negb (sets_pending c)) calls = true ->
      at_most_one_pending (serve_all calls db)).
Proof.
  split; [|intros Hinv Hcalls; now apply serve_all_at_most_one].
  intros Hdup out. subst out.
  assert (Hfail : fst (create_swap_request swap_request current_user db) = db
                  /\ exists e, snd (create_swap_request swap_request current_user db)
                               = Raise e).
  { destruct (create_swap_request_outcome db swap_request current_user)
      as [H|[Hnone _]]; [exact H|].
    destruct Hdup as (r & Hin & Hr).
    destruct (find_some_in _ _ _ Hin Hr) as [r' Hsome]. congruence. }
  destruct Hfail as [Hst Hraise].
  split; [exact Hst|]. split; [exact Hraise|].
  rewrite create_swap_request_conflict. tauto.
Qed.

Lemma at_most_one_pending_empty db :
  swap_requests db = [] -> at_most_one_pending db.
Proof. intros E a b c d. rewrite E. cbn. lia. Qed.

(** Alice's second identical proposal is a Conflict, and the store still
    holds at most one pending request for each tuple. *)
Lemma create_rejects_pending_duplicate_witness :
  fails_with (create_swap_request Sample.guitar_for_spanish Sample.alice
                                  Sample.db_pending) Conflict
  /\ at_most_one_pending
       (serve_all [CreateSwapRequest Sample.guitar_for_spanish Sample.alice;
                   CreateSwapRequest Sample.guitar_for_spanish Sample.alice]
                  Sample.db0).
Proof.
  pose proof (create_rejects_pending_duplicate
                Sample.db_pending Sample.guitar_for_spanish Sample.alice [])
    as [Hdup _].
  pose proof (create_rejects_pending_duplicate
                Sample.db0 Sample.guitar_for_spanish Sample.alice
                [CreateSwapRequest Sample.guitar_for_spanish Sample.alice;
                 CreateSwapRequest Sample.guitar_for_spanish Sample.alice])
    as [_ Hinv].
  split.
  - apply Hdup.
    + eexists. split; [left; reflexivity | reflexivity].
    + exists Sample.bob, Sample.guitar, Sample.spanish.
      repeat split; try reflexivity. discriminate.
  - apply Hinv; [|reflexivity].
    apply at_most_one_pending_empty. reflexivity.
Defined.

(** C1 as stated fails twice. Alice has a pending Guitar-for-Spanish request
    and stops offering Guitar: the same proposal again is refused at step 4,
    an InvalidOperation, not a Conflict. And after Bob rejects it and Alice
    proposes again, an update of the first request to pending leaves two
    pending requests with the same terms. *)
Lemma pending_duplicate_without_conflict :
  duplicate_pending Sample.db_withdrawn Sample.guitar_for_spanish Sample.alice
  /\ snd (create_swap_request Sample.guitar_for_spanish Sample.alice
                              Sample.db_withdrawn)
     = Raise (HTTPException 400 "You don't offer the skill you're proposing to teach")
  /\ kind_of (HTTPException 400 "You don't offer the skill you're proposing to teach")
     = Some InvalidOperation
  /\ List.length (filter (pending_with 1 2 1 2) (swap_requests Sample.db_reopened))
     = 2%nat.
Proof.
  split; [|repeat split].
  eexists. split; [left; reflexivity | reflexivity].
Qed.

(** ** The status column *)

(** C4 at an input that breaks it. Creation stores "pending", but the body
    of an update is [status: str]: on Alice's pending request, Carol's update
    to "archived" is stored, and "archived" is none of the five statuses. *)
Theorem update_stores_status_outside_statuses :
  map SwapRequest.status (swap_requests Sample.db_pending) = ["pending"]
  /\ map SwapRequest.status
         (swap_requests
            (serve (UpdateSwapRequest 1 (Sample.set_status "archived") Sample.carol)
                   Sample.db_pending))
     = ["archived"]
  /\ mem_string "archived" statuses = false.
Proof. repeat split. Qed.

(** Creation itself always stores "pending". *)
Lemma new_swap_request_pending db swap_request current_user :
  SwapRequest.status (new_swap_request db swap_request current_user) = "pending".
Proof. reflexivity. Qed.

(** ** create_skill *)

Lemma create_skill_found db skill current_user existing_skill :
  find (fun s => ilike (Skill.name s) (SkillCreate.name skill)) (skills db)
  = Some existing_skill ->
  create_skill skill current_user db =
  if Skill.is_approved existing_skill then (db, Ok existing_skill)
  else (db, Raise (HTTPException 400 "Skill exists but is pending approval")).
Proof.
  intros Hfind. unfold create_skill. run_handler. rewrite Hfind.
  destruct (Skill.is_approved existing_skill); reflexivity.
Qed.

(** A pattern matches itself: a name is found whatever its case, when it is
    given as it is stored, spaces included. *)
Lemma like_refl (p : list ascii) : like p p = true.
Proof.
  induction p as [|c p IH]; cbn; [reflexivity|].
  destruct (c =? "%")%char.
  - destruct p as [|c' p']; rewrite IH; cbn; now rewrite ?orb_true_r.
  - rewrite IH, Ascii.eqb_refl. now rewrite orb_true_r.
Qed.

Lemma ilike_same_lower (column other : string) :
  lower column = lower other -> ilike column other = true.
Proof. unfold ilike. intros ->. apply like_refl. Qed.

(** C8 at inputs that break it. "Guitar" is an approved skill. The name
    " guitar" has the same normalized form, but the lookup takes it untrimmed
    and finds nothing; the insert of the trimmed, title-cased "Guitar" then
    breaks the UNIQUE constraint on the name: no skill is returned. And the
    name "%", whose normalized form is no skill's, is a pattern that matches
    every name: the call returns Guitar and creates nothing. *)
Theorem create_skill_lookup_not_normalized :
  normalized " guitar" = normalized (Skill.name Sample.guitar)
  /\ Skill.is_approved Sample.guitar = true
  /\ In Sample.guitar (skills Sample.db0)
  /\ create_skill (SkillCreate.mk " guitar" None None) Sample.alice Sample.db0
     = (Sample.db0, Raise IntegrityError)
  /\ forallb (fun s => negb (normalized (Skill.name s) =? normalized "%")%string)
             (skills Sample.db0) = true
  /\ create_skill (SkillCreate.mk "%" None None) Sample.alice Sample.db0
     = (Sample.db0, Ok Sample.guitar).
Proof. repeat split. left. reflexivity. Qed.

(** ** submit_feedback *)

(** C10 (P7, feedback party constraint). A submission succeeds only when the
    request exists, the giver and the receiver are each one of its two
    parties and differ, and the rating is between 1 and 5; a rating out of
    that range fails with Validation and stores nothing. *)
Theorem submit_feedback_gated
        (party_error : ErrorKind) (body : FeedbackCreate.t)
        (current_user : User.t) (db : DB) :
  let out := submit_feedback party_error body current_user db in
  let giver := User.id current_user in
  let receiver := FeedbackCreate.receiver_id body in
  let rating := FeedbackCreate.rating body in
  (succeeded out ->
   exists r,
     find (fun r => SwapRequest.id r =? FeedbackCreate.swap_request_id body)
          (swap_requests db) = Some r
     /\ (SwapRequest.requester_id r = giver \/ SwapRequest.requested_id r = giver)
     /\ (SwapRequest.requester_id r = receiver \/ SwapRequest.requested_id r = receiver)
     /\ giver <> receiver
     /\ 1 <= rating <= 5)
  /\ (~ 1 <= rating <= 5 -> snd out = Raise Validation /\ fst out = db).
Proof.
  intros out giver receiver rating. subst out giver receiver rating.
  unfold submit_feedback, is_party. run_handler.
  destruct (Z.ltb_spec (FeedbackCreate.rating body) 1);
    [|destruct (Z.ltb_spec 5 (FeedbackCreate.rating body))]; cbn [orb].
  - split; [intros [a Ha]; discriminate | split; reflexivity].
  - split; [intros [a Ha]; discriminate | split; reflexivity].
  - split; [|lia].
    destruct (find _ (swap_requests db)) as [r|]; [|intros [a Ha]; discriminate].
    destruct (Z.eqb_spec (User.id current_user) (FeedbackCreate.receiver_id body));
      rewrite ?andb_false_r; cbn [negb]; [intros [a Ha]; discriminate|].
    rewrite andb_true_r.
    destruct (_ && _) eqn:E; [|intros [a Ha]; discriminate].
    intros _. exists r.
    apply andb_prop in E. destruct E as [E1 E2].
    apply orb_prop in E1, E2.
    rewrite !Z.eqb_eq in E1, E2.
    repeat split; try assumption; lia.
Qed.

(** A rating of 6 on Alice's request is refused, whatever the error of a
    party violation. *)
Lemma submit_feedback_gated_witness :
  snd (submit_feedback Validation (FeedbackCreate.mk 1 2 6 None) Sample.alice
                       Sample.db_pending)
  = Raise Validation.
Proof.
  refine (proj1 (proj2 (submit_feedback_gated
                          Validation (FeedbackCreate.mk 1 2 6 None) Sample.alice
                          Sample.db_pending) _)).
  cbn. lia.
Defined.

(** * The other routes *)

(** ** Primary keys *)

Lemma next_id_fresh (ids : list Z) (x : Z) : In x ids -> x < next_id ids.
Proof.
  unfold next_id. induction ids as [|y ids IH]; cbn [fold_right In]; [tauto|].
  intros [->|Hin]; [lia|]. specialize (IH Hin). lia.
Qed.

Lemma find_id_fresh (rows : list SwapRequest.t) (r : SwapRequest.t) :
  SwapRequest.id r = next_id (map SwapRequest.id rows) ->
  find (fun x => SwapRequest.id x =? SwapRequest.id r) (rows ++ [r]) = Some r.
Proof.
  intros Hid.
  assert (Hfresh : forall x, In x rows -> SwapRequest.id x <> SwapRequest.id r).
  { intros x Hin. rewrite Hid.
    pose proof (next_id_fresh _ _ (in_map SwapRequest.id _ _ Hin)). lia. }
  clear Hid. induction rows as [|x rows IH]; cbn.
  - now rewrite Z.eqb_refl.
  - destruct (Z.eqb_spec (SwapRequest.id x) (SwapRequest.id r)) as [E|_].
    + exfalso. apply (Hfresh x); [now left | exact E].
    + apply IH. intros y Hy. apply Hfresh. now right.
Qed.

Lemma delete_rows_fresh (rows : list SwapRequest.t) (r : SwapRequest.t) :
  SwapRequest.id r = next_id (map SwapRequest.id rows) ->
  delete_rows (SwapRequest.id r) (rows ++ [r]) = rows.
Proof.
  intros Hid. unfold delete_rows.
  rewrite filter_app. cbn. rewrite Z.eqb_refl. cbn. rewrite app_nil_r.
  assert (Hfresh : forall x, In x rows -> SwapRequest.id x <> SwapRequest.id r).
  { intros x Hin. rewrite Hid.
    pose proof (next_id_fresh _ _ (in_map SwapRequest.id _ _ Hin)). lia. }
  clear Hid. induction rows as [|x rows IH]; cbn; [reflexivity|].
  destruct (Z.eqb_spec (SwapRequest.id x) (SwapRequest.id r)) as [E|_]; cbn.
  - exfalso. apply (Hfresh x); [now left | exact E].
  - f_equal. apply IH. intros y Hy. apply Hfresh. now right.
Qed.

Lemma find_unique_id (rows : list SwapRequest.t) (r : SwapRequest.t) :
  NoDup (map SwapRequest.id rows) -> In r rows ->
  find (fun x => SwapRequest.id x =? SwapRequest.id r) rows = Some r.
Proof.
  induction rows as [|x rows IH]; cbn; [tauto|].
  intros Hnd [->|Hin].
  - now rewrite Z.eqb_refl.
  - inversion Hnd as [|? ? Hx Hnd']; subst.
    destruct (Z.eqb_spec (SwapRequest.id x) (SwapRequest.id r)) as [E|_].
    + exfalso. apply Hx. rewrite E. now apply in_map.
    + now apply IH.
Qed.

Lemma unique_ids_filter (keep : SwapRequest.t -> bool) (rows : list SwapRequest.t) :
  NoDup (map SwapRequest.id rows) ->
  NoDup (map SwapRequest.id (filter keep rows)).
Proof.
  intros Hnd. induction rows as [|r rows IH]; cbn [filter map]; [constructor|].
  cbn [map] in Hnd. apply NoDup_cons_iff in Hnd. destruct Hnd as [Hr Hnd].
  destruct (keep r); cbn [map]; [|now apply IH].
  apply NoDup_cons; [|now apply IH].
  rewrite in_map_iff. intros (x & Hx & Hin).
  apply filter_In in Hin. apply Hr.
  rewrite in_map_iff. exists x. tauto.
Qed.

Lemma update_rows_terms request_id update_data rows :
  map terms (update_rows request_id update_data rows) = map terms rows.
Proof.
  unfold update_rows. rewrite map_map. apply map_ext.
  intros r. now destruct (SwapRequest.id r =? request_id).
Qed.

Lemma update_swap_request_rows db request_id update_data current_user :
  fst (update_swap_request request_id update_data current_user db) = db
  \/ fst (update_swap_request request_id update_data current_user db)
     = with_swap_requests db (update_rows request_id update_data (swap_requests db)).
Proof.
  destruct (find (fun r => SwapRequest.id r =? request_id) (swap_requests db))
    as [r|] eqn:Hfind.
  - rewrite (update_swap_request_found _ _ _ _ _ Hfind).
    destruct (snd (validate_permissions update_data r current_user db));
      [right | left]; reflexivity.
  - left. unfold update_swap_request. run_handler. now rewrite Hfind.
Qed.

Lemma delete_swap_request_rows db request_id current_user :
  fst (delete_swap_request request_id current_user db) = db
  \/ fst (delete_swap_request request_id current_user db)
     = with_swap_requests db (delete_rows request_id (swap_requests db)).
Proof.
  destruct (find (fun r => SwapRequest.id r =? request_id) (swap_requests db))
    as [r|] eqn:Hfind.
  - rewrite (delete_swap_request_found _ _ _ _ Hfind).
    destruct (negb _); [now left|].
    destruct (negb _); [now left | now right].
  - left. unfold delete_swap_request. run_handler. now rewrite Hfind.
Qed.

Lemma terms_id (rows rows' : list SwapRequest.t) :
  map terms rows' = map terms rows ->
  map SwapRequest.id rows' = map SwapRequest.id rows.
Proof.
  intros H.
  assert (E : forall l, map SwapRequest.id l
                        = map (fun t => fst (fst (fst (fst t)))) (map terms l)).
  { intros l. rewrite map_map. reflexivity. }
  now rewrite (E rows), (E rows'), H.
Qed.

Lemma serve_unique_ids (c : Call) (db : DB) :
  unique_ids db -> unique_ids (serve c db).
Proof.
  unfold unique_ids, serve. intros Hnd.
  destruct c; cbn [handle outcome fst].
  - destruct (create_swap_request_outcome db swap_request current_user)
      as [[H _]|[_ H]]; rewrite H; [exact Hnd|].
    cbn [fst swap_requests with_swap_requests].
    rewrite map_app. cbn [map]. apply NoDup_app; [exact Hnd | repeat constructor; easy|].
    intros x Hin [<-|[]].
    pose proof (next_id_fresh _ _ Hin) as Hlt. cbn in Hlt. lia.
  - destruct (update_swap_request_rows db request_id update_data current_user)
      as [H|H]; rewrite H; [exact Hnd|].
    cbn [swap_requests with_swap_requests].
    now rewrite (terms_id _ _ (update_rows_terms request_id update_data _)).
  - destruct (delete_swap_request_rows db request_id current_user)
      as [H|H]; rewrite H; [exact Hnd|].
    cbn [swap_requests with_swap_requests]. now apply unique_ids_filter.
  - now rewrite create_skill_rows.
  - now rewrite add_skill_offered_rows.
  - now rewrite remove_skill_offered_rows.
Qed.

(** X1. Executed one after the other, the calls keep the ids of the swap
    requests unique: a new request gets an id no stored request has, an
    update keeps the ids, a deletion removes rows. *)
Theorem serve_all_unique_ids (calls : list Call) (db : DB) :
  unique_ids db -> unique_ids (serve_all calls db).
Proof.
  unfold serve_all. revert db.
  induction calls as [|c calls IH]; intros db Hnd; cbn; [exact Hnd|].
  apply IH. now apply serve_unique_ids.
Qed.

Lemma serve_all_unique_ids_witness :
  unique_ids Sample.db_reopened.
Proof.
  apply (serve_all_unique_ids
           [CreateSwapRequest Sample.guitar_for_spanish Sample.alice;
            UpdateSwapRequest 1 (Sample.set_status "rejected") Sample.bob;
            CreateSwapRequest Sample.guitar_for_spanish Sample.alice;
            UpdateSwapRequest 1 (Sample.set_status "pending") Sample.carol]
           Sample.db0).
  constructor.
Defined.

(** ** get_swap_request and get_my_swap_requests *)


Section Listing.

Variable order_by : list SwapRequest.t -> list SwapRequest.t.
Hypothesis order_by_permutation : forall rows, Permutation (order_by rows) rows.

Lemma my_swap_requests_filter_party status_filter type_filter current_user r :
  my_swap_requests_filter status_filter type_filter current_user r = true ->
  SwapRequest.requester_id r = User.id current_user
  \/ SwapRequest.requested_id r = User.id current_user.
Proof.
  unfold my_swap_requests_filter. intros H.
  apply andb_prop in H. destruct H as [H _].
  destruct (type_filter =? "sent")%string; [left; now apply Z.eqb_eq|].
  destruct (type_filter =? "received")%string; [right; now apply Z.eqb_eq|].
  apply orb_prop in H. rewrite !Z.eqb_eq in H. exact H.
Qed.

Lemma get_my_swap_requests_result status_filter type_filter current_user db r :
  (exists result,
      snd (get_my_swap_requests order_by status_filter type_filter current_user db)
      = Ok result /\ In r result)
  <-> In r (swap_requests db)
      /\ my_swap_requests_filter status_filter type_filter current_user r = true.
Proof.
  unfold get_my_swap_requests. run_handler.
  rewrite <- filter_In. split.
  - intros (result & [= <-] & Hin).
    eapply Permutation_in; [apply order_by_permutation | exact Hin].
  - intros Hin. eexists. split; [reflexivity|].
    eapply Permutation_in; [apply Permutation_sym, order_by_permutation | exact Hin].
Qed.

End Listing.

(** X3. The listing of a user holds exactly the stored requests that the
    filters keep: with "sent" those the user requested, with "received" those
    requested from the user, with any other type both; and, when a non-empty
    status filter is given, of that status only. It never holds a request
    the user is no party of. *)
Theorem get_my_swap_requests_lists
        (order_by : list SwapRequest.t -> list SwapRequest.t)
        status_filter type_filter current_user db result r :
  (forall rows, Permutation (order_by rows) rows) ->
  snd (get_my_swap_requests order_by status_filter type_filter current_user db)
  = Ok result ->
  let requester := SwapRequest.requester_id r = User.id current_user in
  let requested := SwapRequest.requested_id r = User.id current_user in
  (In r result <->
   In r (swap_requests db)
   /\ (type_filter = "sent" -> requester)
   /\ (type_filter = "received" -> requested)
   /\ (requester \/ requested)
   /\ (forall s, status_filter = Some s -> s <> "" -> SwapRequest.status r = s)).
Proof.
  intros Hperm Hres requester requested. subst requester requested.
  pose proof (get_my_swap_requests_result
                order_by Hperm status_filter type_filter current_user db r) as H.
  rewrite Hres in H.
  assert (Hin : In r result <-> exists result', Ok (E:=Error) result = Ok result'
                                                /\ In r result').
  { split; [intros Hr; now exists result | intros (? & [= <-] & Hr); exact Hr]. }
  rewrite Hin, H. clear H Hin Hres.
  unfold my_swap_requests_filter.
  destruct (String.eqb_spec type_filter "sent") as [Es|Ns];
    [|destruct (String.eqb_spec type_filter "received") as [Er|Nr]];
    destruct (Z.eqb_spec (SwapRequest.requester_id r) (User.id current_user));
    destruct (Z.eqb_spec (SwapRequest.requested_id r) (User.id current_user));
    cbn [orb andb];
    (destruct status_filter as [s|];
     [destruct (String.eqb_spec s "") as [Ee|Ne];
      [|destruct (String.eqb_spec (SwapRequest.status r) s) as [Et|Nt]]|]);
    split; intros [Hr Hf]; (split; [exact Hr|]);
      try discriminate Hf; try reflexivity;
      try (repeat split; try tauto; try congruence;
           intros s' [= <-]; congruence);
      try (exfalso; destruct Hf as (H1 & H2 & H3 & H4);
           first [ now apply H1 | now apply H2 | tauto
                 | apply Nt; apply H4; [reflexivity | assumption] ]).
Qed.

Lemma get_my_swap_requests_lists_witness :
  In (SwapRequest.mk 1 1 2 1 2 (Some "Trade?") "pending")
     [SwapRequest.mk 1 1 2 1 2 (Some "Trade?") "pending"]
  <-> In (SwapRequest.mk 1 1 2 1 2 (Some "Trade?") "pending")
         (swap_requests Sample.db_pending)
      /\ ("received" = "sent" -> 1 = 2)
      /\ ("received" = "received" -> 2 = 2)
      /\ (1 = 2 \/ 2 = 2)
      /\ (forall s, Some "pending" = Some s -> s <> "" -> "pending" = s).
Proof.
  exact (get_my_swap_requests_lists
           (@rev SwapRequest.t) (Some "pending") "received" Sample.bob
           Sample.db_pending
           [SwapRequest.mk 1 1 2 1 2 (Some "Trade?") "pending"]
           (SwapRequest.mk 1 1 2 1 2 (Some "Trade?") "pending")
           (fun rows => Permutation_sym (Permutation_rev rows)) eq_refl).
Defined.

(** X4. While the ids are unique, every request the listing of a user
    holds can be fetched by that user, and [get_swap_request] returns that
    very row. *)
Theorem listed_request_is_fetched
        (order_by : list SwapRequest.t -> list SwapRequest.t)
        status_filter type_filter current_user db result r :
  (forall rows, Permutation (order_by rows) rows) ->
  unique_ids db ->
  snd (get_my_swap_requests order_by status_filter type_filter current_user db)
  = Ok result ->
  In r result ->
  get_swap_request (SwapRequest.id r) current_user db = (db, Ok r).
Proof.
  intros Hperm Hnd Hres Hin.
  destruct (proj1 (get_my_swap_requests_result
                     order_by Hperm status_filter type_filter current_user db r))
    as [Hrow Hf]; [now exists result|].
  apply my_swap_requests_filter_party in Hf.
  unfold get_swap_request. run_handler.
  rewrite (find_unique_id _ _ Hnd Hrow).
  destruct (Z.eqb_spec (SwapRequest.requester_id r) (User.id current_user));
    destruct (Z.eqb_spec (SwapRequest.requested_id r) (User.id current_user));
    cbn [negb andb]; try reflexivity.
  tauto.
Qed.

Lemma listed_request_is_fetched_witness :
  get_swap_request 1 Sample.bob Sample.db_pending
  = (Sample.db_pending, Ok (SwapRequest.mk 1 1 2 1 2 (Some "Trade?") "pending")).
Proof.
  refine (listed_request_is_fetched
            (@rev SwapRequest.t) None "all" Sample.bob Sample.db_pending
            [SwapRequest.mk 1 1 2 1 2 (Some "Trade?") "pending"]
            (SwapRequest.mk 1 1 2 1 2 (Some "Trade?") "pending")
            (fun rows => Permutation_sym (Permutation_rev rows)) _ eq_refl _).
  - repeat constructor. easy.
  - left. reflexivity.
Defined.

(** ** What the writes keep *)

(** X5. Whatever its outcome, an update neither adds nor removes a request
    and writes neither an id, nor a party, nor a skill: row by row these are
    as before. *)
Theorem update_keeps_terms db request_id update_data current_user :
  map terms
      (swap_requests (fst (update_swap_request request_id update_data current_user db)))
  = map terms (swap_requests db).
Proof.
  destruct (update_swap_request_rows db request_id update_data current_user)
    as [H|H]; rewrite H; [reflexivity|].
  apply update_rows_terms.
Qed.

(** The new request carries the id the table hands out. *)
Lemma create_swap_request_ok db swap_request current_user db' r :
  create_swap_request swap_request current_user db = (db', Ok r) ->
  r = new_swap_request db swap_request current_user
  /\ db' = with_swap_requests db (swap_requests db ++ [r]).
Proof.
  destruct (create_swap_request_outcome db swap_request current_user)
    as [[_ [e H]]|[_ H]]; intros E; rewrite E in H.
  - discriminate H.
  - inversion H. split; reflexivity.
Qed.

(** X6. A request that was just created can be fetched under the id the
    call returned, by its requester and by the requested user, and is
    pending. *)
Theorem created_request_is_fetched db swap_request current_user db' r viewer :
  create_swap_request swap_request current_user db = (db', Ok r) ->
  User.id viewer = User.id current_user
  \/ User.id viewer = SwapRequestCreate.requested_id swap_request ->
  get_swap_request (SwapRequest.id r) viewer db' = (db', Ok r)
  /\ SwapRequest.status r = "pending".
Proof.
  intros Hc Hv. apply create_swap_request_ok in Hc. destruct Hc as [Hr ->].
  split; [|now rewrite Hr].
  unfold get_swap_request. run_handler.
  cbn [swap_requests with_swap_requests].
  rewrite find_id_fresh; [|now rewrite Hr].
  rewrite Hr. cbn [new_swap_request SwapRequest.requester_id SwapRequest.requested_id].
  destruct Hv as [-> | ->]; rewrite Z.eqb_refl; cbn [negb andb];
    rewrite ?andb_false_r; reflexivity.
Qed.

Lemma created_request_is_fetched_witness :
  get_swap_request 1 Sample.bob Sample.db_pending
  = (Sample.db_pending,
     Ok (new_swap_request Sample.db0 Sample.guitar_for_spanish Sample.alice))
  /\ SwapRequest.status
       (new_swap_request Sample.db0 Sample.guitar_for_spanish Sample.alice)
     = "pending".
Proof.
  refine (created_request_is_fetched
            Sample.db0 Sample.guitar_for_spanish Sample.alice Sample.db_pending
            (new_swap_request Sample.db0 Sample.guitar_for_spanish Sample.alice)
            Sample.bob eq_refl _).
  right. reflexivity.
Defined.

(** X7. The requester can take back a request they just created: deleting
    it under the id the creation returned succeeds and leaves the store
    exactly as it was before the creation. *)
Theorem create_then_delete db swap_request current_user db' r :
  create_swap_request swap_request current_user db = (db', Ok r) ->
  delete_swap_request (SwapRequest.id r) current_user db'
  = (db, Ok "Swap request deleted successfully").
Proof.
  intros Hc. apply create_swap_request_ok in Hc. destruct Hc as [Hr ->].
  assert (Hid : SwapRequest.id r = next_id (map SwapRequest.id (swap_requests db)))
    by now rewrite Hr.
  rewrite (delete_swap_request_found _ _ _ r);
    [|cbn [swap_requests with_swap_requests]; now apply find_id_fresh].
  assert (Hreq : SwapRequest.requester_id r = User.id current_user)
    by now rewrite Hr.
  assert (Hst : SwapRequest.status r = "pending") by now rewrite Hr.
  rewrite Hreq, Hst, Z.eqb_refl. cbn [negb String.eqb Ascii.eqb Bool.eqb].
  cbn [swap_requests with_swap_requests].
  rewrite (delete_rows_fresh _ _ Hid).
  destruct db; reflexivity.
Qed.

Lemma create_then_delete_witness :
  delete_swap_request 1 Sample.alice Sample.db_pending
  = (Sample.db0, Ok "Swap request deleted successfully").
Proof.
  exact (create_then_delete
           Sample.db0 Sample.guitar_for_spanish Sample.alice Sample.db_pending
           (new_swap_request Sample.db0 Sample.guitar_for_spanish Sample.alice)
           eq_refl).
Defined.

(** X8. A user who is stored and active cannot propose a swap to
    themselves: the call fails with 400 whatever the skills of the body, even
    skills that do not exist, and stores nothing. *)
Theorem create_with_self_refused db swap_request current_user user :
  find (fun u => User.id u =? User.id current_user) (users db) = Some user ->
  User.is_active user = true ->
  SwapRequestCreate.requested_id swap_request = User.id current_user ->
  create_swap_request swap_request current_user db
  = (db, Raise (HTTPException 400 "Cannot request a swap with yourself")).
Proof.
  intros Hu Ha Hself.
  unfold create_swap_request. run_handler.
  rewrite Hself, Hu, Ha, Z.eqb_refl. reflexivity.
Qed.

Lemma create_with_self_refused_witness :
  fails_with (create_swap_request (SwapRequestCreate.mk 1 99 98 None)
                                  Sample.alice Sample.db0)
             InvalidOperation.
Proof.
  rewrite (create_with_self_refused
             Sample.db0 (SwapRequestCreate.mk 1 99 98 None) Sample.alice
             Sample.alice eq_refl eq_refl eq_refl).
  eexists. split; reflexivity.
Defined.

(** X9. After a deletion that succeeded, the id is gone: fetching,
    updating and deleting it again all get 404; and every request of another
    id is still stored. *)
Theorem deleted_request_is_gone
        db request_id current_user db' message viewer update_data :
  delete_swap_request request_id current_user db = (db', Ok message) ->
  fails_with (get_swap_request request_id viewer db') NotFound
  /\ fails_with (update_swap_request request_id update_data viewer db') NotFound
  /\ fails_with (delete_swap_request request_id viewer db') NotFound
  /\ (forall r, In r (swap_requests db) -> SwapRequest.id r <> request_id ->
                In r (swap_requests db')).
Proof.
  intros Hd.
  assert (Hdb : db' = with_swap_requests db (delete_rows request_id (swap_requests db))).
  { destruct (find (fun r => SwapRequest.id r =? request_id) (swap_requests db))
      as [r|] eqn:Hfind.
    - rewrite (delete_swap_request_found _ _ _ _ Hfind) in Hd.
      destruct (negb _); [discriminate|].
      destruct (negb _); [discriminate|]. now inversion Hd.
    - unfold delete_swap_request in Hd. revert Hd. run_handler.
      rewrite Hfind. discriminate. }
  assert (Hnone : find (fun r => SwapRequest.id r =? request_id) (swap_requests db')
                  = None).
  { rewrite Hdb. cbn [swap_requests with_swap_requests]. unfold delete_rows.
    destruct (find _ (filter _ _)) as [r|] eqn:E; [|reflexivity].
    apply find_some in E. destruct E as [Hin Hr].
    apply filter_In in Hin. destruct Hin as [_ Hn].
    now rewrite Hr in Hn. }
  repeat split.
  - unfold get_swap_request. run_handler. rewrite Hnone.
    eexists. split; reflexivity.
  - unfold update_swap_request. run_handler. rewrite Hnone.
    eexists. split; reflexivity.
  - unfold delete_swap_request. run_handler. rewrite Hnone.
    eexists. split; reflexivity.
  - intros r Hin Hid. rewrite Hdb. cbn [swap_requests with_swap_requests].
    apply filter_In. split; [exact Hin|].
    now destruct (Z.eqb_spec (SwapRequest.id r) request_id).
Qed.

Lemma deleted_request_is_gone_witness :
  fails_with (get_swap_request 1 Sample.alice Sample.db0) NotFound.
Proof.
  exact (proj1 (deleted_request_is_gone
                  Sample.db_pending 1 Sample.alice Sample.db0
                  "Swap request deleted successfully" Sample.alice
                  (Sample.set_status "accepted") eq_refl)).
Defined.

(** ** The offered skills of a user *)

Lemma skill_in_offered db user skill :
  skill_in skill (skills_offered db user) = true <->
  exists s, In s (skills db)
            /\ Skill.id s = Skill.id skill
            /\ existsb (joined (User.id user) (Skill.id s)) (user_skills_offered db)
               = true.
Proof.
  unfold skill_in, skills_offered. rewrite existsb_exists. split.
  - intros (s & Hin & Hid). apply filter_In in Hin. destruct Hin as [Hin Hj].
    exists s. repeat split; [exact Hin | now apply Z.eqb_eq | exact Hj].
  - intros (s & Hin & Hid & Hj). exists s. split; [|now apply Z.eqb_eq].
    apply filter_In. split; [exact Hin | exact Hj].
Qed.

Lemma skills_offered_same db db' user :
  skills db' = skills db ->
  (forall skill_id,
      existsb (joined (User.id user) skill_id) (user_skills_offered db')
      = existsb (joined (User.id user) skill_id) (user_skills_offered db)) ->
  skills_offered db' user = skills_offered db user.
Proof.
  intros Hs Hj. unfold skills_offered. rewrite Hs.
  apply filter_ext. intros s. apply Hj.
Qed.

(** The store after [add_skill_offered] found the skill. *)
Lemma add_skill_offered_found db skill_id current_user skill :
  find (fun s => Skill.id s =? skill_id) (skills db) = Some skill ->
  add_skill_offered skill_id current_user db =
  (if skill_in skill (skills_offered db current_user) then db
   else with_user_skills_offered
          db (user_skills_offered db ++ [(User.id current_user, Skill.id skill)]),
   Ok "Skill added successfully").
Proof.
  intros Hfind. unfold add_skill_offered. run_handler. rewrite Hfind.
  destruct (skill_in skill (skills_offered db current_user)); reflexivity.
Qed.

Lemma remove_skill_offered_found db skill_id current_user skill :
  find (fun s => Skill.id s =? skill_id) (skills db) = Some skill ->
  remove_skill_offered skill_id current_user db =
  (if skill_in skill (skills_offered db current_user) then
     with_user_skills_offered
       db (filter (fun p => negb (joined (User.id current_user) (Skill.id skill) p))
                  (user_skills_offered db))
   else db,
   Ok "Skill removed successfully").
Proof.
  intros Hfind. unfold remove_skill_offered. run_handler. rewrite Hfind.
  destruct (skill_in skill (skills_offered db current_user)); reflexivity.
Qed.

Lemma add_skill_offered_offers db skill_id current_user skill :
  find (fun s => Skill.id s =? skill_id) (skills db) = Some skill ->
  skill_in skill
           (skills_offered (fst (add_skill_offered skill_id current_user db))
                           current_user) = true.
Proof.
  intros Hfind. rewrite (add_skill_offered_found _ _ _ _ Hfind). cbn [fst].
  destruct (skill_in skill (skills_offered db current_user)) eqn:E; [exact E|].
  apply skill_in_offered. exists skill.
  split; [now apply find_some in Hfind|]. split; [reflexivity|].
  cbn [user_skills_offered with_user_skills_offered].
  rewrite existsb_app. cbn. unfold joined. cbn. rewrite !Z.eqb_refl.
  now rewrite orb_true_r.
Qed.

Lemma remove_skill_offered_offers db skill_id current_user skill :
  find (fun s => Skill.id s =? skill_id) (skills db) = Some skill ->
  skill_in skill
           (skills_offered (fst (remove_skill_offered skill_id current_user db))
                           current_user) = false.
Proof.
  intros Hfind. rewrite (remove_skill_offered_found _ _ _ _ Hfind). cbn [fst].
  destruct (skill_in skill (skills_offered db current_user)) eqn:E; [|exact E].
  apply not_true_is_false. intros H.
  apply skill_in_offered in H. destruct H as (s & _ & Hid & Hj).
  cbn [user_skills_offered with_user_skills_offered] in Hj.
  apply existsb_exists in Hj. destruct Hj as (p & Hin & Hp).
  apply filter_In in Hin. destruct Hin as [_ Hn].
  rewrite Hid in Hp. now rewrite Hp in Hn.
Qed.

(** X10. Adding an existing skill to one's offered skills succeeds and
    makes the user offer it; adding it again changes nothing, so no second row
    joins the user and the skill; the offered skills of every other user are as
    before. *)
Theorem add_skill_offered_idempotent db skill_id current_user skill :
  find (fun s => Skill.id s =? skill_id) (skills db) = Some skill ->
  let db1 := fst (add_skill_offered skill_id current_user db) in
  snd (add_skill_offered skill_id current_user db) = Ok "Skill added successfully"
  /\ offers db1 current_user skill = true
  /\ add_skill_offered skill_id current_user db1
     = (db1, Ok "Skill added successfully")
  /\ (forall other, User.id other <> User.id current_user ->
                    skills_offered db1 other = skills_offered db other).
Proof.
  intros Hfind db1.
  pose proof (add_skill_offered_offers db skill_id current_user skill Hfind) as Hoff.
  fold db1 in Hoff.
  assert (Hskills : skills db1 = skills db).
  { subst db1. rewrite (add_skill_offered_found _ _ _ _ Hfind). cbn [fst].
    now destruct (skill_in skill (skills_offered db current_user)). }
  split; [now rewrite (add_skill_offered_found _ _ _ _ Hfind)|].
  split; [exact Hoff|]. split.
  - rewrite (add_skill_offered_found db1 _ _ skill); [|now rewrite Hskills].
    now rewrite Hoff.
  - intros other Hother. apply skills_offered_same; [exact Hskills|].
    intros sid. subst db1. rewrite (add_skill_offered_found _ _ _ _ Hfind). cbn [fst].
    destruct (skill_in skill (skills_offered db current_user)); [reflexivity|].
    cbn [user_skills_offered with_user_skills_offered].
    rewrite existsb_app. cbn. unfold joined at 2. cbn.
    destruct (Z.eqb_spec (User.id current_user) (User.id other)); [congruence|].
    cbn. now rewrite orb_false_r.
Qed.

Lemma add_skill_offered_idempotent_witness :
  offers (fst (add_skill_offered 2 Sample.alice Sample.db0)) Sample.alice Sample.spanish
  = true.
Proof.
  exact (proj1 (proj2 (add_skill_offered_idempotent
                         Sample.db0 2 Sample.alice Sample.spanish eq_refl))).
Defined.

(** X11. Removing an existing skill from one's offered skills succeeds
    and the user no longer offers it, whether or not they did; removing it
    again changes nothing; the offered skills of every other user are as
    before. *)
Theorem remove_skill_offered_idempotent db skill_id current_user skill :
  find (fun s => Skill.id s =? skill_id) (skills db) = Some skill ->
  let db1 := fst (remove_skill_offered skill_id current_user db) in
  snd (remove_skill_offered skill_id current_user db)
  = Ok "Skill removed successfully"
  /\ offers db1 current_user skill = false
  /\ remove_skill_offered skill_id current_user db1
     = (db1, Ok "Skill removed successfully")
  /\ (forall other, User.id other <> User.id current_user ->
                    skills_offered db1 other = skills_offered db other).
Proof.
  intros Hfind db1.
  pose proof (remove_skill_offered_offers db skill_id current_user skill Hfind)
    as Hoff.
  fold db1 in Hoff.
  assert (Hskills : skills db1 = skills db).
  { subst db1. rewrite (remove_skill_offered_found _ _ _ _ Hfind). cbn [fst].
    now destruct (skill_in skill (skills_offered db current_user)). }
  split; [now rewrite (remove_skill_offered_found _ _ _ _ Hfind)|].
  split; [exact Hoff|]. split.
  - rewrite (remove_skill_offered_found db1 _ _ skill); [|now rewrite Hskills].
    now rewrite Hoff.
  - intros other Hother. apply skills_offered_same; [exact Hskills|].
    intros sid. subst db1. rewrite (remove_skill_offered_found _ _ _ _ Hfind).
    cbn [fst].
    destruct (skill_in skill (skills_offered db current_user)); [|reflexivity].
    cbn [user_skills_offered with_user_skills_offered].
    induction (user_skills_offered db) as [|p l IH]; cbn; [reflexivity|].
    destruct (joined (User.id current_user) (Skill.id skill) p) eqn:Ep; cbn.
    + rewrite IH. unfold joined in Ep |- *.
      apply andb_prop in Ep. destruct Ep as [Ep _]. apply Z.eqb_eq in Ep.
      destruct (Z.eqb_spec (fst p) (User.id other)); [congruence | reflexivity].
    + now rewrite IH.
Qed.

Lemma remove_skill_offered_idempotent_witness :
  offers (fst (remove_skill_offered 1 Sample.alice Sample.db0)) Sample.alice
         Sample.guitar = false
  /\ skills_offered (fst (remove_skill_offered 1 Sample.alice Sample.db0)) Sample.bob
     = skills_offered Sample.db0 Sample.bob.
Proof.
  pose proof (remove_skill_offered_idempotent
                Sample.db0 1 Sample.alice Sample.guitar eq_refl)
    as (_ & Hoff & _ & Hother).
  split; [exact Hoff|]. apply Hother. discriminate.
Defined.

(** A creation that succeeded found the skill offered among the offered
    skills of the requester, and the requested user active. *)
Lemma create_swap_request_ok_checks db swap_request current_user db' r :
  create_swap_request swap_request current_user db = (db', Ok r) ->
  exists requested_user skill_offered,
    find (fun u => User.id u =? SwapRequestCreate.requested_id swap_request)
         (users db) = Some requested_user
    /\ User.is_active requested_user = true
    /\ find (fun s => Skill.id s =? SwapRequestCreate.skill_offered_id swap_request)
            (skills db) = Some skill_offered
    /\ skill_in skill_offered (skills_offered db current_user) = true.
Proof.
  unfold create_swap_request. run_handler.
  destruct (find _ (users db)) as [requested_user|]; [|discriminate].
  destruct (User.is_active requested_user) eqn:Ha; cbn [negb]; [|discriminate].
  destruct (_ =? User.id current_user); [discriminate|].
  destruct (find (fun s => Skill.id s =? SwapRequestCreate.skill_offered_id swap_request)
                 (skills db)) as [skill_offered|]; [|discriminate].
  destruct (find (fun s => Skill.id s =? SwapRequestCreate.skill_wanted_id swap_request)
                 (skills db)) as [skill_wanted|]; [|discriminate].
  destruct (skill_in skill_offered (skills_offered db current_user)) eqn:Ho;
    cbn [negb]; [|discriminate].
  intros _. exists requested_user, skill_offered. repeat split; assumption.
Qed.

Lemma create_swap_request_fails db swap_request current_user :
  (forall db' r, create_swap_request swap_request current_user db <> (db', Ok r)) ->
  fst (create_swap_request swap_request current_user db) = db
  /\ exists e, snd (create_swap_request swap_request current_user db) = Raise e.
Proof.
  intros Hno.
  destruct (create_swap_request_outcome db swap_request current_user)
    as [H|[_ H]]; [exact H|].
  now apply Hno in H.
Qed.

(** X12. A user who has removed a skill from their offered skills can no
    longer propose it: every creation that offers it fails and stores
    nothing, whoever is asked and whatever is wanted. *)
Theorem removed_skill_cannot_be_proposed db skill_id current_user swap_request message :
  snd (remove_skill_offered skill_id current_user db) = Ok message ->
  SwapRequestCreate.skill_offered_id swap_request = skill_id ->
  let db1 := fst (remove_skill_offered skill_id current_user db) in
  fst (create_swap_request swap_request current_user db1) = db1
  /\ exists e, snd (create_swap_request swap_request current_user db1) = Raise e.
Proof.
  intros Hok Hsid db1.
  destruct (find (fun s => Skill.id s =? skill_id) (skills db)) as [skill|] eqn:Hfind.
  - pose proof (remove_skill_offered_offers db skill_id current_user skill Hfind)
      as Hoff.
    fold db1 in Hoff.
    assert (Hskills : skills db1 = skills db).
    { subst db1. rewrite (remove_skill_offered_found _ _ _ _ Hfind). cbn [fst].
      now destruct (skill_in skill (skills_offered db current_user)). }
    apply create_swap_request_fails. intros db' r Hc.
    apply create_swap_request_ok_checks in Hc.
    destruct Hc as (_ & skill_offered & _ & _ & Hso & Ho).
    rewrite Hsid, Hskills, Hfind in Hso. inversion Hso; subst.
    now rewrite Hoff in Ho.
  - exfalso. revert Hok. unfold remove_skill_offered. run_handler.
    rewrite Hfind. discriminate.
Qed.

Lemma removed_skill_cannot_be_proposed_witness :
  exists e,
    snd (create_swap_request Sample.guitar_for_spanish Sample.alice
                             (fst (remove_skill_offered 1 Sample.alice Sample.db0)))
    = Raise e.
Proof.
  exact (proj2 (removed_skill_cannot_be_proposed
                  Sample.db0 1 Sample.alice Sample.guitar_for_spanish
                  "Skill removed successfully" eq_refl eq_refl)).
Defined.

(** ** ban_user *)

Lemma find_update_is_active user_id value rows user :
  find (fun u => User.id u =? user_id) rows = Some user ->
  find (fun u => User.id u =? user_id) (update_is_active user_id value rows)
  = Some (set_is_active value user).
Proof.
  unfold update_is_active.
  induction rows as [|x rows IH]; cbn; [discriminate|].
  destruct (User.id x =? user_id) eqn:E; cbn; rewrite E.
  - intros H. now inversion H.
  - exact IH.
Qed.

Lemma ban_user_found db user_id current_admin user :
  find (fun u => User.id u =? user_id) (users db) = Some user ->
  ban_user user_id current_admin db =
  if User.is_admin user then
    (db, Raise (HTTPException 400 "Cannot ban an admin user"))
  else
    (with_users db (update_is_active user_id false (users db)),
     Ok ("User " ++ User.username user ++ " has been banned")%string).
Proof.
  intros Hfind.
  assert (Hid : User.id user = user_id).
  { apply find_some in Hfind. destruct Hfind as [_ H]. now apply Z.eqb_eq. }
  unfold ban_user. run_handler. rewrite Hfind, Hid.
  destruct (User.is_admin user); reflexivity.
Qed.

(** X13. Once a user is banned, nobody can propose a swap to them: every
    creation that names them fails with 404 and stores nothing. The ban
    itself leaves the swap requests, also the pending ones of that user, as
    they were. *)
Theorem banned_user_cannot_be_requested
        db user_id current_admin message swap_request current_user :
  snd (ban_user user_id current_admin db) = Ok message ->
  SwapRequestCreate.requested_id swap_request = user_id ->
  let db1 := fst (ban_user user_id current_admin db) in
  create_swap_request swap_request current_user db1
  = (db1, Raise (HTTPException 404 "Requested user not found or inactive"))
  /\ swap_requests db1 = swap_requests db.
Proof.
  intros Hok Hrid db1.
  destruct (find (fun u => User.id u =? user_id) (users db)) as [user|] eqn:Hfind.
  - subst db1. rewrite (ban_user_found _ _ _ _ Hfind) in *.
    destruct (User.is_admin user); [discriminate Hok|]. cbn [fst].
    split; [|reflexivity].
    unfold create_swap_request. run_handler.
    cbn [users with_users]. rewrite Hrid.
    rewrite (find_update_is_active _ _ _ _ Hfind). reflexivity.
  - exfalso. revert Hok. unfold ban_user. run_handler.
    rewrite Hfind. discriminate.
Qed.

Lemma banned_user_cannot_be_requested_witness :
  fails_with (create_swap_request Sample.guitar_for_spanish Sample.alice
                                  (fst (ban_user 2 Sample.carol Sample.db0)))
             NotFound.
Proof.
  rewrite (proj1 (banned_user_cannot_be_requested
                    Sample.db0 2 Sample.carol "User bob has been banned"
                    Sample.guitar_for_spanish Sample.alice eq_refl eq_refl)).
  eexists. split; reflexivity.
Defined.

(** X14. Unbanning undoes a ban: after a ban followed by an unban of the
    same user, that user is found active again, and the store is the one an
    unban alone would have left. *)
Theorem unban_after_ban db user_id current_admin message user :
  find (fun u => User.id u =? user_id) (users db) = Some user ->
  snd (ban_user user_id current_admin db) = Ok message ->
  let db1 := fst (ban_user user_id current_admin db) in
  let db2 := fst (unban_user user_id current_admin db1) in
  find (fun u => User.id u =? user_id) (users db2) = Some (set_is_active true user)
  /\ db2 = fst (unban_user user_id current_admin db).
Proof.
  intros Hfind Hok db1 db2. subst db2 db1.
  rewrite (ban_user_found _ _ _ _ Hfind) in *.
  destruct (User.is_admin user); [discriminate Hok|]. cbn [fst].
  assert (Hid : User.id user = user_id).
  { apply find_some in Hfind. destruct Hfind as [_ H]. now apply Z.eqb_eq. }
  unfold unban_user. run_handler. cbn [users with_users].
  rewrite (find_update_is_active _ _ _ _ Hfind), Hfind. cbn [fst].
  cbn [set_is_active User.id]. rewrite Hid.
  cbn [users with_users with_users skills user_skills_offered swap_requests feedback].
  assert (Hrows : update_is_active user_id true
                                   (update_is_active user_id false (users db))
                  = update_is_active user_id true (users db)).
  { unfold update_is_active. rewrite map_map. apply map_ext. intros u.
    destruct (User.id u =? user_id) eqn:E; cbn; rewrite E; reflexivity. }
  split.
  - rewrite Hrows. now apply find_update_is_active.
  - unfold with_users. cbn. now rewrite Hrows.
Qed.

Lemma unban_after_ban_witness :
  fst (unban_user 2 Sample.carol (fst (ban_user 2 Sample.carol Sample.db0)))
  = fst (unban_user 2 Sample.carol Sample.db0).
Proof.
  exact (proj2 (unban_after_ban Sample.db0 2 Sample.carol
                                "User bob has been banned" Sample.bob
                                eq_refl eq_refl)).
Defined.

(** ** Profiles *)

Lemma skills_offered_id db user user' :
  User.id user = User.id user' ->
  skills_offered db user = skills_offered db user'.
Proof. unfold skills_offered. now intros ->. Qed.

(** X15. A skill a user has added shows in their own list of offered
    skills, also when their profile is private. *)
Theorem added_skill_is_listed db skill_id current_user skill user :
  find (fun s => Skill.id s =? skill_id) (skills db) = Some skill ->
  find (fun u => User.id u =? User.id current_user) (users db) = Some user ->
  let db1 := fst (add_skill_offered skill_id current_user db) in
  exists listed,
    get_user_skills_offered (User.id current_user) current_user db1
    = (db1, Ok listed)
    /\ skill_in skill listed = true.
Proof.
  intros Hs Hu db1.
  pose proof (add_skill_offered_offers db skill_id current_user skill Hs) as Hoff.
  fold db1 in Hoff.
  assert (Husers : users db1 = users db).
  { subst db1. rewrite (add_skill_offered_found _ _ _ _ Hs). cbn [fst].
    now destruct (skill_in skill (skills_offered db current_user)). }
  assert (Hid : User.id user = User.id current_user).
  { apply find_some in Hu. destruct Hu as [_ H]. now apply Z.eqb_eq. }
  exists (skills_offered db1 user).
  unfold get_user_skills_offered. run_handler.
  rewrite Husers, Hu, Hid, Z.eqb_refl. cbn [negb]. rewrite andb_false_r.
  split; [reflexivity|].
  now rewrite (skills_offered_id db1 user current_user Hid).
Qed.

Lemma added_skill_is_listed_witness :
  exists listed,
    get_user_skills_offered 1 Sample.alice
                            (fst (add_skill_offered 2 Sample.alice Sample.db0))
    = (fst (add_skill_offered 2 Sample.alice Sample.db0), Ok listed)
    /\ skill_in Sample.spanish listed = true.
Proof.
  exact (added_skill_is_listed Sample.db0 2 Sample.alice Sample.spanish
                               Sample.alice eq_refl eq_refl).
Defined.

(** X16. A profile and its offered skills are shown when the profile is
    public or the viewer is the user: then [get_user] returns the user and
    [get_user_skills_offered] the skills joined to them. A private profile
    gets every other viewer 403 on both routes. *)
Theorem private_profile_gated db user_id current_user user :
  find (fun u => User.id u =? user_id) (users db) = Some user ->
  (User.is_public user = true \/ User.id current_user = user_id ->
   get_user user_id current_user db = (db, Ok user)
   /\ get_user_skills_offered user_id current_user db
      = (db, Ok (skills_offered db user)))
  /\ (User.is_public user = false -> User.id current_user <> user_id ->
      fails_with (get_user user_id current_user db) Forbidden
      /\ fails_with (get_user_skills_offered user_id current_user db) Forbidden).
Proof.
  intros Hu.
  assert (Hid : User.id user = user_id).
  { apply find_some in Hu. destruct Hu as [_ H]. now apply Z.eqb_eq. }
  unfold get_user, get_user_skills_offered. run_handler. rewrite Hu, Hid.
  destruct (User.is_public user);
    destruct (Z.eqb_spec user_id (User.id current_user)); cbn [negb andb];
      (split; [intros H | intros H1 H2]);
      try (split; reflexivity); try discriminate; try congruence.
  - destruct H; [discriminate | congruence].
  - split; eexists; split; reflexivity.
Qed.

Lemma private_profile_gated_witness :
  fails_with (get_user_skills_offered
                4 Sample.alice
                (with_users Sample.db0 [User.mk 4 "dan" false true false]))
             Forbidden.
Proof.
  refine (proj2 (proj2 (private_profile_gated
                          (with_users Sample.db0 [User.mk 4 "dan" false true false])
                          4 Sample.alice (User.mk 4 "dan" false true false)
                          eq_refl) eq_refl _)).
  discriminate.
Defined.

(** ** create_skill *)






(** A call of [create_skill] that returns a skill either returned a stored,
    approved one, or found no match and appended the new skill. *)
Lemma create_skill_ok db skill current_user db' s :
  create_skill skill current_user db = (db', Ok s) ->
  (db' = db
   /\ find (fun x => ilike (Skill.name x) (SkillCreate.name skill)) (skills db)
      = Some s
   /\ Skill.is_approved s = true)
  \/ (db' = with_skills db (skills db ++ [s])
      /\ find (fun x => ilike (Skill.name x) (SkillCreate.name skill)) (skills db)
         = None
      /\ Skill.id s = next_id (map Skill.id (skills db))
      /\ Skill.name s = title (strip (SkillCreate.name skill))
      /\ Skill.is_approved s = true).
Proof.
  unfold create_skill, add_skill. run_handler.
  destruct (find _ (skills db)) as [existing|] eqn:Hfind.
  - destruct (Skill.is_approved existing) eqn:Ha; [|discriminate].
    intros H. inversion H; subst. left. repeat split; assumption.
  - destruct (existsb _ (skills db)); [discriminate|].
    intros H. inversion H; subst. right. repeat split.
Qed.

(** X17. A name that is the name of a stored skill up to ASCII case never
    makes a second skill: the call leaves the store as it was, and either
    returns a stored, approved skill or fails with Conflict. *)
Theorem create_skill_known_name db skill current_user stored :
  In stored (skills db) ->
  lower (Skill.name stored) = lower (SkillCreate.name skill) ->
  let out := create_skill skill current_user db in
  fst out = db
  /\ ((exists s, snd out = Ok s /\ In s (skills db) /\ Skill.is_approved s = true)
      \/ fails_with out Conflict).
Proof.
  intros Hin Hname out. subst out.
  destruct (find_some_in (fun s => ilike (Skill.name s) (SkillCreate.name skill))
                         (skills db) stored Hin (ilike_same_lower _ _ Hname))
    as [existing Hfind].
  rewrite (create_skill_found _ _ _ _ Hfind).
  destruct (Skill.is_approved existing) eqn:Ha; cbn [fst snd].
  - split; [reflexivity|]. left. exists existing.
    apply find_some in Hfind. tauto.
  - split; [reflexivity|]. right. eexists. split; reflexivity.
Qed.

Lemma create_skill_known_name_witness :
  fst (create_skill (SkillCreate.mk "GUITAR" None None) Sample.alice Sample.db0)
  = Sample.db0.
Proof.
  refine (proj1 (create_skill_known_name
                   Sample.db0 (SkillCreate.mk "GUITAR" None None) Sample.alice
                   Sample.guitar _ eq_refl)).
  left. reflexivity.
Defined.



(** ** The catalog *)

Section Keys.

Context {A : Type} (key : A -> Z).

Lemma find_key_unique (rows : list A) (r : A) :
  NoDup (map key rows) -> In r rows ->
  find (fun x => key x =? key r) rows = Some r.
Proof.
  induction rows as [|x rows IH]; cbn; [tauto|].
  intros Hnd [->|Hin].
  - now rewrite Z.eqb_refl.
  - inversion Hnd as [|? ? Hx Hnd']; subst.
    destruct (Z.eqb_spec (key x) (key r)) as [E|_].
    + exfalso. apply Hx. rewrite E. now apply in_map.
    + now apply IH.
Qed.

Lemma find_key_fresh (rows : list A) (r : A) :
  key r = next_id (map key rows) ->
  find (fun x => key x =? key r) (rows ++ [r]) = Some r.
Proof.
  intros Hid.
  assert (Hfresh : forall x, In x rows -> key x <> key r).
  { intros x Hin. rewrite Hid.
    pose proof (next_id_fresh _ _ (in_map key _ _ Hin)). lia. }
  clear Hid. induction rows as [|x rows IH]; cbn.
  - now rewrite Z.eqb_refl.
  - destruct (Z.eqb_spec (key x) (key r)) as [E|_].
    + exfalso. apply (Hfresh x); [now left | exact E].
    + apply IH. intros y Hy. apply Hfresh. now right.
Qed.


End Keys.

(** X19. While the ids of the skills are unique, the skill a creation
    returns can be fetched under its id, and the ids stay unique. *)
Theorem created_skill_is_fetched db skill current_user db' s viewer :
  NoDup (map Skill.id (skills db)) ->
  create_skill skill current_user db = (db', Ok s) ->
  get_skill (Skill.id s) viewer db' = (db', Ok s)
  /\ NoDup (map Skill.id (skills db')).
Proof.
  intros Hnd Hc. apply create_skill_ok in Hc.
  unfold get_skill. run_handler.
  destruct Hc as [(-> & Hfind & _)|(-> & _ & Hid & _)].
  - apply find_some in Hfind. destruct Hfind as [Hin _].
    now rewrite (find_key_unique Skill.id _ _ Hnd Hin).
  - cbn [skills with_skills].
    rewrite (find_key_fresh Skill.id _ _ Hid). split; [reflexivity|].
    rewrite map_app. cbn [map].
    apply NoDup_app; [exact Hnd | repeat constructor; easy|].
    intros x Hin [E|[]]. rewrite Hid in E.
    pose proof (next_id_fresh _ _ Hin). lia.
Qed.

Lemma created_skill_is_fetched_witness :
  get_skill 3 Sample.bob
            (fst (create_skill (SkillCreate.mk "piano" None None) Sample.alice
                               Sample.db0))
  = (fst (create_skill (SkillCreate.mk "piano" None None) Sample.alice Sample.db0),
     Ok (Skill.mk 3 "Piano" None None true)).
Proof.
  refine (proj1 (created_skill_is_fetched
                   Sample.db0 (SkillCreate.mk "piano" None None) Sample.alice
                   (fst (create_skill (SkillCreate.mk "piano" None None)
                                      Sample.alice Sample.db0))
                   (Skill.mk 3 "Piano" None None true) Sample.bob _ eq_refl)).
  repeat constructor; cbn; intuition discriminate.
Defined.

Lemma in_offset_limit {A} (offset limit : Z) (rows : list A) (x : A) :
  In x (offset_limit offset limit rows) -> In x rows.
Proof.
  unfold offset_limit. intros H.
  assert (Hskip : forall n (l : list A), In x (skipn n l) -> In x l).
  { intros n l. rewrite <- (firstn_skipn n l) at 2. intros Hx.
    apply in_or_app. now right. }
  assert (Hfirst : forall n (l : list A), In x (firstn n l) -> In x l).
  { intros n l. rewrite <- (firstn_skipn n l) at 2. intros Hx.
    apply in_or_app. now left. }
  destruct (limit <? 0); eauto.
Qed.

Lemma length_offset_limit {A} (offset limit : Z) (rows : list A) :
  0 <= limit ->
  Z.of_nat (List.length (offset_limit offset limit rows)) <= limit.
Proof.
  intros Hl. unfold offset_limit.
  destruct (Z.ltb_spec limit 0); [lia|].
  pose proof (firstn_le_length (Z.to_nat limit) (skipn (Z.to_nat offset) rows)).
  lia.
Qed.


Lemma in_update_is_approved skill_id value rows s :
  In s (update_is_approved skill_id value rows) ->
  (Skill.id s = skill_id /\ Skill.is_approved s = value)
  \/ (Skill.id s <> skill_id /\ In s rows).
Proof.
  unfold update_is_approved. rewrite in_map_iff. intros (x & Hx & Hin).
  destruct (Z.eqb_spec (Skill.id x) skill_id) as [E|N]; subst s.
  - left. split; [exact E | reflexivity].
  - right. split; assumption.
Qed.

Lemma find_update_is_approved skill_id value rows skill :
  find (fun s => Skill.id s =? skill_id) rows = Some skill ->
  find (fun s => Skill.id s =? skill_id) (update_is_approved skill_id value rows)
  = Some (set_is_approved value skill).
Proof.
  unfold update_is_approved.
  induction rows as [|x rows IH]; cbn; [discriminate|].
  destruct (Skill.id x =? skill_id) eqn:E; cbn; rewrite E.
  - intros H. now inversion H.
  - exact IH.
Qed.

Lemma reject_skill_found db skill_id current_user skill :
  find (fun s => Skill.id s =? skill_id) (skills db) = Some skill ->
  reject_skill skill_id current_user db
  = (with_skills db (update_is_approved skill_id false (skills db)),
     Ok "Skill rejected successfully").
Proof.
  intros Hfind.
  assert (Hid : Skill.id skill = skill_id).
  { apply find_some in Hfind. destruct Hfind as [_ H]. now apply Z.eqb_eq. }
  unfold reject_skill. run_handler. now rewrite Hfind, Hid.
Qed.

Lemma approve_skill_found db skill_id current_user skill :
  find (fun s => Skill.id s =? skill_id) (skills db) = Some skill ->
  approve_skill skill_id current_user db
  = (with_skills db (update_is_approved skill_id true (skills db)),
     Ok "Skill approved successfully").
Proof.
  intros Hfind.
  assert (Hid : Skill.id skill = skill_id).
  { apply find_some in Hfind. destruct Hfind as [_ H]. now apply Z.eqb_eq. }
  unfold approve_skill. run_handler. now rewrite Hfind, Hid.
Qed.

Lemma get_skills_in category search limit offset current_user db result s :
  snd (get_skills category search limit offset current_user db) = Ok result ->
  In s result ->
  In s (skills db)
  /\ Skill.is_approved s = true
  /\ ilike_filter category (Skill.category s) = true
  /\ ilike_filter search (Some (Skill.name s)) = true.
Proof.
  unfold get_skills. run_handler. intros [= <-] Hin.
  apply in_offset_limit in Hin.
  repeat (apply filter_In in Hin; destruct Hin as [Hin ?]).
  repeat split; assumption.
Qed.

(** X20. A rejected skill leaves the catalog: after [reject_skill]
    succeeded, no page of [get_skills], whatever the filters, holds a skill of
    that id, and the skill shows, unapproved, among the pending skills. *)
Theorem rejected_skill_is_hidden
        db skill_id current_admin message skill
        category search limit offset current_user result :
  find (fun s => Skill.id s =? skill_id) (skills db) = Some skill ->
  snd (reject_skill skill_id current_admin db) = Ok message ->
  let db1 := fst (reject_skill skill_id current_admin db) in
  snd (get_skills category search limit offset current_user db1) = Ok result ->
  (forall s, In s result -> Skill.id s <> skill_id)
  /\ exists pending,
      snd (get_pending_skills current_admin db1) = Ok pending
      /\ In (set_is_approved false skill) pending.
Proof.
  intros Hfind _ db1 Hres. subst db1.
  rewrite (reject_skill_found _ _ _ _ Hfind) in *. cbn [fst] in *.
  split.
  - intros s Hin.
    destruct (get_skills_in _ _ _ _ _ _ _ _ Hres Hin) as (Hrow & Ha & _).
    cbn [skills with_skills] in Hrow.
    apply in_update_is_approved in Hrow.
    destruct Hrow as [[_ Hf]|[Hid _]]; [congruence | exact Hid].
  - eexists. split; [reflexivity|].
    cbn [skills with_skills]. apply filter_In. split; [|reflexivity].
    eapply find_some, find_update_is_approved, Hfind.
Qed.

Lemma rejected_skill_is_hidden_witness :
  (forall s, In s [Sample.spanish] -> Skill.id s <> 1)
  /\ exists pending,
      snd (get_pending_skills Sample.carol
                              (fst (reject_skill 1 Sample.carol Sample.db0)))
      = Ok pending
      /\ In (set_is_approved false Sample.guitar) pending.
Proof.
  exact (rejected_skill_is_hidden
           Sample.db0 1 Sample.carol "Skill rejected successfully" Sample.guitar
           None None 50 0 Sample.alice [Sample.spanish]
           eq_refl eq_refl eq_refl).
Defined.

(** X21. An approved skill is approved and nothing else of it changes:
    after [approve_skill] succeeded, [get_skill] returns the skill with its
    flag set, and no pending skill has that id. *)
Theorem approved_skill_is_approved
        db skill_id current_admin message skill viewer pending :
  find (fun s => Skill.id s =? skill_id) (skills db) = Some skill ->
  snd (approve_skill skill_id current_admin db) = Ok message ->
  let db1 := fst (approve_skill skill_id current_admin db) in
  snd (get_pending_skills current_admin db1) = Ok pending ->
  get_skill skill_id viewer db1 = (db1, Ok (set_is_approved true skill))
  /\ (forall s, In s pending -> Skill.id s <> skill_id).
Proof.
  intros Hfind _ db1 Hp. subst db1.
  rewrite (approve_skill_found _ _ _ _ Hfind) in *. cbn [fst] in *.
  split.
  - unfold get_skill. run_handler. cbn [skills with_skills].
    now rewrite (find_update_is_approved _ _ _ _ Hfind).
  - revert Hp. unfold get_pending_skills. run_handler. intros [= <-] s Hin.
    apply filter_In in Hin. destruct Hin as [Hrow Hn].
    cbn [skills with_skills] in Hrow.
    apply in_update_is_approved in Hrow.
    destruct Hrow as [[_ Ht]|[Hid _]]; [|exact Hid].
    now rewrite Ht in Hn.
Qed.

Lemma approved_skill_is_approved_witness :
  get_skill 1 Sample.bob
            (fst (approve_skill 1 Sample.carol
                                (fst (reject_skill 1 Sample.carol Sample.db0))))
  = (Sample.db0, Ok Sample.guitar).
Proof.
  exact (proj1 (approved_skill_is_approved
                  (fst (reject_skill 1 Sample.carol Sample.db0)) 1 Sample.carol
                  "Skill approved successfully"
                  (set_is_approved false Sample.guitar) Sample.bob []
                  eq_refl eq_refl eq_refl)).
Defined.

(** X22. A page of the catalog holds stored, approved skills only, each of
    which passes the category and the name filter, and no more of them than
    a limit that is not negative. *)
Theorem get_skills_page category search limit offset current_user db result :
  snd (get_skills category search limit offset current_user db) = Ok result ->
  (forall s, In s result ->
             In s (skills db)
             /\ Skill.is_approved s = true
             /\ ilike_filter category (Skill.category s) = true
             /\ ilike_filter search (Some (Skill.name s)) = true)
  /\ (0 <= limit -> Z.of_nat (List.length result) <= limit).
Proof.
  intros Hres. split.
  - intros s Hin. exact (get_skills_in _ _ _ _ _ _ _ _ Hres Hin).
  - revert Hres. unfold get_skills. run_handler. intros [= <-].
    apply length_offset_limit.
Qed.

Lemma get_skills_page_witness :
  Z.of_nat (List.length [Sample.guitar]) <= 1.
Proof.
  refine (proj2 (get_skills_page None None 1 0 Sample.alice Sample.db0
                                 [Sample.guitar] eq_refl) _).
  lia.
Defined.

(** ** Search *)











(** ** Categories *)

(** X24. The categories listed are exactly the non-empty categories of the
    approved skills, each of them once. *)
Theorem get_skill_categories_lists current_user db result :
  snd (get_skill_categories current_user db) = Ok result ->
  NoDup result
  /\ forall c,
      In c result <->
      c <> ""
      /\ exists s, In s (skills db)
                   /\ Skill.is_approved s = true
                   /\ Skill.category s = Some c.
Proof.
  unfold get_skill_categories. run_handler. intros [= <-]. split.
  - apply NoDup_filter, NoDup_nodup.
  - intros c. rewrite filter_In, nodup_In, in_flat_map. split.
    + intros [(s & Hin & Hc) Hne].
      apply filter_In in Hin. destruct Hin as [Hin Ha].
      split; [now destruct (String.eqb_spec c "")|].
      exists s. repeat split; try assumption.
      destruct (Skill.category s) as [c'|]; [|contradiction].
      destruct Hc as [->|[]]. reflexivity.
    + intros [Hne (s & Hin & Ha & Hc)]. split.
      * exists s. split; [apply filter_In; now split|].
        rewrite Hc. now left.
      * now destruct (String.eqb_spec c "").
Qed.

Lemma get_skill_categories_lists_witness :
  NoDup ["Music"; "Languages"]
  /\ forall c,
      In c ["Music"; "Languages"] <->
      c <> ""
      /\ exists s, In s (skills Sample.db0)
                   /\ Skill.is_approved s = true
                   /\ Skill.category s = Some c.
Proof.
  exact (get_skill_categories_lists Sample.alice Sample.db0
                                    ["Music"; "Languages"] eq_refl).
Defined.

(** ** delete_skill *)




(** ** get_platform_stats *)

Lemma count_complement {A} (p : A -> bool) (rows : list A) :
  count (fun _ => true) rows - count p rows = count (fun x => negb (p x)) rows.
Proof.
  unfold count. induction rows as [|x rows IH]; cbn [filter]; [reflexivity|].
  destruct (p x); cbn [negb List.length]; lia.
Qed.

Lemma count_disjoint {A} (p q : A -> bool) (rows : list A) :
  (forall x, p x = true -> q x = false) ->
  count p rows + count q rows <= count (fun _ => true) rows.
Proof.
  intros Hpq. unfold count. induction rows as [|x rows IH]; cbn [filter]; [cbn; lia|].
  destruct (p x) eqn:Ep; [rewrite (Hpq x Ep)|destruct (q x)];
    cbn [List.length]; lia.
Qed.

(** X26. The platform statistics add up: the inactive users are those that
    are not active, the approved skills those that are not pending, and the
    pending and the completed swaps together are no more than all swaps. *)
Theorem get_platform_stats_consistent current_admin db stats :
  snd (get_platform_stats current_admin db) = Ok stats ->
  PlatformStats.users_inactive stats
  = count (fun u => negb (User.is_active u)) (users db)
  /\ PlatformStats.users_active stats + PlatformStats.users_inactive stats
     = Z.of_nat (List.length (users db))
  /\ PlatformStats.skills_approved stats = count Skill.is_approved (skills db)
  /\ PlatformStats.skills_approved stats + PlatformStats.skills_pending stats
     = Z.of_nat (List.length (skills db))
  /\ PlatformStats.swaps_pending stats + PlatformStats.swaps_completed stats
     <= PlatformStats.swaps_total stats
  /\ PlatformStats.swaps_total stats = Z.of_nat (List.length (swap_requests db)).
Proof.
  unfold get_platform_stats. run_handler. intros [= <-]. cbn.
  assert (Hall : forall A (l : list A),
             count (fun _ => true) l = Z.of_nat (List.length l)).
  { intros A l. unfold count. f_equal. f_equal.
    induction l as [|x l IH]; cbn; [reflexivity | now rewrite IH]. }
  repeat split.
  - apply count_complement.
  - rewrite <- Hall. lia.
  - rewrite count_complement. unfold count. do 2 f_equal.
    apply filter_ext. intros s. apply negb_involutive.
  - rewrite <- Hall. lia.
  - apply count_disjoint. intros r Hp.
    apply String.eqb_eq in Hp. rewrite Hp. reflexivity.
  - apply Hall.
Qed.

Lemma get_platform_stats_consistent_witness :
  PlatformStats.users_inactive
    (PlatformStats.mk 3 2 1 2 2 0 1 1 0)
  = count (fun u => negb (User.is_active u))
          (users (fst (ban_user 2 Sample.carol Sample.db_pending))).
Proof.
  exact (proj1 (get_platform_stats_consistent
                  Sample.carol (fst (ban_user 2 Sample.carol Sample.db_pending))
                  (PlatformStats.mk 3 2 1 2 2 0 1 1 0) eq_refl)).
Defined.

(** ** What an update writes *)

(** X27. An update that succeeded on a stored request stores and returns
    the request with the new status; its message is the one of the body when
    the body sets it, also to null, and the stored one when the body leaves
    it out; id, parties and skills are as before. *)
Theorem update_writes_status_and_message
        db request_id update_data current_user r r' :
  find (fun r => SwapRequest.id r =? request_id) (swap_requests db) = Some r ->
  snd (update_swap_request request_id update_data current_user db) = Ok r' ->
  find (fun r => SwapRequest.id r =? request_id)
       (swap_requests (fst (update_swap_request request_id update_data
                                                current_user db)))
  = Some r'
  /\ SwapRequest.status r' = SwapRequestUpdate.status update_data
  /\ (SwapRequestUpdate.message update_data = None ->
      SwapRequest.message r' = SwapRequest.message r)
  /\ (forall value, SwapRequestUpdate.message update_data = Some value ->
                    SwapRequest.message r' = value)
  /\ terms r' = terms r.
Proof.
  intros Hfind. rewrite (update_swap_request_found _ _ _ _ _ Hfind).
  destruct (snd (validate_permissions update_data r current_user db)) as [[]|e];
    cbn [fst snd]; [|discriminate].
  intros [= <-]. cbn [swap_requests with_swap_requests].
  split; [now apply find_update_rows|].
  split; [reflexivity|].
  split; [intros Hm; cbn; now rewrite Hm|].
  split; [intros value Hm; cbn; now rewrite Hm | reflexivity].
Qed.

Lemma update_writes_status_and_message_witness :
  SwapRequest.message
    (SwapRequest.mk 1 1 2 1 2 (Some "Trade?") "accepted")
  = SwapRequest.message
      (new_swap_request Sample.db0 Sample.guitar_for_spanish Sample.alice).
Proof.
  exact (proj1 (proj2 (proj2 (update_writes_status_and_message
                                Sample.db_pending 1 (Sample.set_status "accepted")
                                Sample.bob
                                (new_swap_request Sample.db0 Sample.guitar_for_spanish
                                                  Sample.alice)
                                (SwapRequest.mk 1 1 2 1 2 (Some "Trade?") "accepted")
                                eq_refl eq_refl)))
               eq_refl).
Defined.

(** X28. An update and a deletion touch the rows of the id they are given
    and no other: a request of another id is stored after the call exactly
    when it was before. *)
Theorem other_requests_untouched db request_id update_data current_user r :
  SwapRequest.id r <> request_id ->
  (In r (swap_requests (fst (update_swap_request request_id update_data
                                                 current_user db)))
   <-> In r (swap_requests db))
  /\ (In r (swap_requests (fst (delete_swap_request request_id current_user db)))
      <-> In r (swap_requests db)).
Proof.
  intros Hid. split.
  - destruct (update_swap_request_rows db request_id update_data current_user)
      as [H|H]; rewrite H; [reflexivity|].
    cbn [swap_requests with_swap_requests]. unfold update_rows.
    rewrite in_map_iff. split.
    + intros (x & Hx & Hin).
      destruct (Z.eqb_spec (SwapRequest.id x) request_id) as [E|_];
        [|now subst x].
      subst r. cbn in Hid. contradiction.
    + intros Hin. exists r. split; [|exact Hin].
      now destruct (Z.eqb_spec (SwapRequest.id r) request_id).
  - destruct (delete_swap_request_rows db request_id current_user)
      as [H|H]; rewrite H; [reflexivity|].
    cbn [swap_requests with_swap_requests]. unfold delete_rows.
    rewrite filter_In.
    destruct (Z.eqb_spec (SwapRequest.id r) request_id); [contradiction|].
    cbn. tauto.
Qed.

Lemma other_requests_untouched_witness :
  In (SwapRequest.mk 2 1 2 1 2 (Some "Trade?") "pending")
     (swap_requests
        (fst (delete_swap_request 1 Sample.alice Sample.db_reopened)))
  <-> In (SwapRequest.mk 2 1 2 1 2 (Some "Trade?") "pending")
         (swap_requests Sample.db_reopened).
Proof.
  refine (proj2 (other_requests_untouched
                   Sample.db_reopened 1 (Sample.set_status "accepted") Sample.alice
                   (SwapRequest.mk 2 1 2 1 2 (Some "Trade?") "pending") _)).
  discriminate.
Defined.
